(** * settle: authentication gate, user retrieval saga and SQL value codecs

    A shallow embedding of three Go source files of the settle repository:
    - [api/lib/authentication/middleware.go]  (module [Authentication]),
    - the register endpoint [RetrieveUser]    (module [Endpoint]),
    - the mint model's [Amount] and [OfStatus] (module [Model]).

    Go strings are byte strings and are modelled by [string]; [*big.Int] by
    [Z]; a Go [error] by [option error] where [None] is [nil]. *)

From stdpp Require Import base strings list gmap.
From Stdlib Require Import ZArith Ascii String Lia.

Local Open Scope string_scope.
Local Open Scope Z_scope.

(** ** Go values shared by the three packages *)

Module Go.

(** The dynamic values that reach the code through [interface{}]: the
    members of [driver.Value] and [nil]. *)
Inductive any : Type :=
| Nil
| Int64 (n : Z)
| Float64 (bits : Z)
| Bool (b : bool)
| Bytes (b : string)
| Str (s : string)
| Time (unix : Z).

(** Errors of [lib/errors], kept symbolic: [Newf] holds its format and its
    arguments, [Trace] wraps, [NewUserError] carries the HTTP status, the
    machine code and the message over an optional cause. *)
#[warnings="-register-all"]
Inductive error : Type :=
| Newf (format : string) (args : list any)
| Trace (err : error)
| NewUserError (cause : option error) (status : Z) (code message : string).

(** A computation that either yields a value or fails with an [error]. *)
Inductive result (A : Type) : Type :=
| Ok (a : A)
| Err (e : error).
Arguments Ok {A} a.
Arguments Err {A} e.

#[global] Instance any_eq_dec : EqDecision any.
Proof. solve_decision. Defined.

(** A call that either returns or panics. *)
Inductive panics (A : Type) : Type :=
| Returns (a : A)
| Panics (msg : string).
Arguments Returns {A} a.
Arguments Panics {A} msg.

#[global] Instance panics_ret : MRet panics := @Returns.

#[global] Instance panics_bind : MBind panics :=
  fun A B (k : A -> panics B) (m : panics A) =>
    match m with
    | Returns a => k a
    | Panics msg => Panics msg
    end.

End Go.

(** ** [mint/model]: Amount and OfStatus *)

Module Model.
Import Go.

(** [type Amount big.Int] *)
Definition Amount : Type := Z.

(** *** [big.Int.String]: sign, then the decimal digits, most significant
    first, by repeated division by ten. *)

Definition digit_char (d : Z) : ascii :=
  ascii_of_nat (48 + Z.to_nat d).

Fixpoint digits_acc (fuel : nat) (n : Z) (acc : string) : string :=
  match fuel with
  | O => acc
  | S fuel' =>
      let acc' := String (digit_char (n mod 10)) acc in
      if n / 10 =? 0 then acc' else digits_acc fuel' (n / 10) acc'
  end.

(** Digits of a natural number; [Z.log2 n + 1] steps are enough. *)
Definition nat_digits (n : Z) : string :=
  if n =? 0 then "0" else digits_acc (S (Z.to_nat (Z.log2 n))) n "".

Definition big_String (x : Z) : string :=
  if x <? 0 then String "-" (nat_digits (- x)) else nat_digits x.

(** *** [big.Int.SetString(s, 10)]: an optional sign ['+'] or ['-'], then
    one or more digits ['0'..'9'], and nothing else. *)

Definition digit_val (c : ascii) : option Z :=
  let n := Z.of_nat (nat_of_ascii c) in
  if (48 <=? n) && (n <=? 57) then Some (n - 48) else None.

Fixpoint scan_digits (acc : Z) (s : string) : option Z :=
  match s with
  | EmptyString => Some acc
  | String c rest =>
      match digit_val c with
      | Some d => scan_digits (acc * 10 + d) rest
      | None => None
      end
  end.

(** The scanner rejects a number without digits. *)
Definition scan_nat (s : string) : option Z :=
  match s with
  | EmptyString => None
  | _ => scan_digits 0 s
  end.

Definition big_SetString (s : string) : option Z :=
  match s with
  | EmptyString => None
  | String c rest =>
      if Ascii.eqb c "-" then option_map Z.opp (scan_nat rest)
      else if Ascii.eqb c "+" then scan_nat rest
      else scan_nat s
  end.

(** *** [func (b *Amount) Scan(src interface{}) error]

    The receiver is overwritten; the result is the new receiver or the
    error. *)
Definition Amount_Scan (b : Amount) (src : any) : result Amount :=
  match src with
  | Int64 n => Ok n
  | Bytes s =>
      match big_SetString s with
      | Some z => Ok z
      | None => Err (Newf "Impossible to set Amount with string: %q" [src])
      end
  | Str s =>
      match big_SetString s with
      | Some z => Ok z
      | None => Err (Newf "Impossible to set Amount with string: %q" [src])
      end
  | _ => Err (Newf "Incompatible type for Amount with value: %q" [src])
  end.

(** [func (b Amount) Value() (driver.Value, error)] *)
Definition Amount_Value (b : Amount) : result any :=
  Ok (Str (big_String b)).

(** [type OfStatus string] *)
Definition OfStatus : Type := string.
Definition OfStActive : OfStatus := "active".
Definition OfStClosed : OfStatus := "closed".

(** [func (s OfStatus) Value() (driver.Value, error)] *)
Definition OfStatus_Value (s : OfStatus) : result any :=
  Ok (Str s).

(** [func (s *OfStatus) Scan(src interface{}) error] *)
Definition OfStatus_Scan (s : OfStatus) (src : any) : result OfStatus :=
  match src with
  | Bytes b => Ok b
  | Str v => Ok v
  | _ => Err (Newf "Incompatible type for OfStatus with value: %q" [src])
  end.

(** The shape of a base-10 integer: an optional sign, then digits, at
    least one. *)
Definition is_digit (c : ascii) : bool :=
  match digit_val c with
  | Some _ => true
  | None => false
  end.

Fixpoint all_digits (s : string) : bool :=
  match s with
  | EmptyString => true
  | String c rest => is_digit c && all_digits rest
  end.

Definition digits_shape (s : string) : bool :=
  match s with
  | EmptyString => false
  | _ => all_digits s
  end.

Definition decimal_shape (s : string) : bool :=
  match s with
  | EmptyString => false
  | String c rest =>
      if Ascii.eqb c "-" || Ascii.eqb c "+" then digits_shape rest
      else digits_shape s
  end.

(** The source value is a string or a byte slice. *)
Definition is_text (src : any) : bool :=
  match src with
  | Bytes _ | Str _ => true
  | _ => false
  end.

End Model.

(** ** [regexp]: the patterns of the skip list

    A pattern is a regular expression with its two anchors; matching is by
    derivatives. [MatchString] looks for a match anywhere in the text unless
    an anchor pins it to the start or to the end. *)

Module Regexp.

Inductive regex : Type :=
| Void
| Eps
| Class (ranges : list (ascii * ascii))
| Cat (r1 r2 : regex)
| Alt (r1 r2 : regex)
| Star (r : regex).

Definition in_range (c : ascii) (rg : ascii * ascii) : bool :=
  ((nat_of_ascii (fst rg) <=? nat_of_ascii c)%nat
   && (nat_of_ascii c <=? nat_of_ascii (snd rg))%nat)%bool.

Definition in_class (c : ascii) (ranges : list (ascii * ascii)) : bool :=
  existsb (in_range c) ranges.

Fixpoint nullable (r : regex) : bool :=
  match r with
  | Void => false
  | Eps => true
  | Class _ => false
  | Cat r1 r2 => nullable r1 && nullable r2
  | Alt r1 r2 => nullable r1 || nullable r2
  | Star _ => true
  end.

Fixpoint deriv (c : ascii) (r : regex) : regex :=
  match r with
  | Void => Void
  | Eps => Void
  | Class ranges => if in_class c ranges then Eps else Void
  | Cat r1 r2 =>
      if nullable r1 then Alt (Cat (deriv c r1) r2) (deriv c r2)
      else Cat (deriv c r1) r2
  | Alt r1 r2 => Alt (deriv c r1) (deriv c r2)
  | Star r1 => Cat (deriv c r1) (Star r1)
  end.

Fixpoint full_match (r : regex) (s : string) : bool :=
  match s with
  | EmptyString => nullable r
  | String c rest => full_match (deriv c r) rest
  end.

Definition Chr (c : ascii) : regex := Class [(c, c)].

Fixpoint Lit (s : string) : regex :=
  match s with
  | EmptyString => Eps
  | String c rest => Cat (Chr c) (Lit rest)
  end.

Definition Plus (r : regex) : regex := Cat r (Star r).

Definition AnyByte : regex := Class [(ascii_of_nat 0, ascii_of_nat 255)].

(** [*regexp.Regexp]: [anchor_begin] is a leading [^], [anchor_end] a
    trailing [$]. *)
Record Regexp : Type := mkRegexp {
  anchor_begin : bool;
  body : regex;
  anchor_end : bool
}.

Definition MatchString (re : Regexp) (s : string) : bool :=
  let before := if anchor_begin re then Eps else Star AnyByte in
  let after := if anchor_end re then Eps else Star AnyByte in
  full_match (Cat before (Cat (body re) after)) s.

(** The language of a regular expression, against which the matcher is
    checked. *)
Inductive matches : regex -> string -> Prop :=
| matches_Eps : matches Eps ""
| matches_Class (c : ascii) (ranges : list (ascii * ascii)) :
    in_class c ranges = true -> matches (Class ranges) (String c "")
| matches_Cat (r1 r2 : regex) (s1 s2 : string) :
    matches r1 s1 -> matches r2 s2 -> matches (Cat r1 r2) (s1 +:+ s2)
| matches_Alt_l (r1 r2 : regex) (s : string) :
    matches r1 s -> matches (Alt r1 r2) s
| matches_Alt_r (r1 r2 : regex) (s : string) :
    matches r2 s -> matches (Alt r1 r2) s
| matches_Star_nil (r : regex) : matches (Star r) ""
| matches_Star_cons (r : regex) (s1 s2 : string) :
    matches r s1 -> matches (Star r) s2 -> matches (Star r) (s1 +:+ s2).

(** Every byte of the string is in the class. *)
Fixpoint all_in_class (ranges : list (ascii * ascii)) (s : string) : bool :=
  match s with
  | EmptyString => true
  | String c rest => in_class c ranges && all_in_class ranges rest
  end.

End Regexp.

(** ** [api/lib/authentication]: the authentication middleware *)

Module Authentication.
Import Go Regexp.

Definition statusKey : string := "authentication.status".

(** [type AutStatus string] *)
Definition AutStatus : Type := string.
Definition AutStSucceeded : AutStatus := "succeeded".
Definition AutStSkipped : AutStatus := "skipped".
Definition AutStFailed : AutStatus := "failed".

(** [type Status struct { Status AutStatus; Address string }] *)
Record Status : Type := mkStatus {
  Status_Status : AutStatus;
  Status_Address : string
}.

(** What a context can hold: a [Status], or a value of another type. *)
Inductive value : Type :=
| VStatus (s : Status)
| VOther (a : any).

(** [context.Context] as the chain of its [WithValue] layers. *)
Inductive Context : Type :=
| Background
| WithValue (parent : Context) (key : any) (val : value).

(** [ctx.Value(key)]: the innermost layer with that key, [None] for nil. *)
Fixpoint Value (ctx : Context) (key : any) : option value :=
  match ctx with
  | Background => None
  | WithValue parent k v => if decide (k = key) then Some v else Value parent key
  end.

Definition With (ctx : Context) (status : Status) : Context :=
  WithValue ctx (Str statusKey) (VStatus status).

(** [return ctx.Value(statusKey).(Status)]: the type assertion has no
    comma-ok form, so it panics on nil and on a value of another type. *)
Definition Get (ctx : Context) : panics Status :=
  match Value ctx (Str statusKey) with
  | Some (VStatus s) => Returns s
  | Some (VOther _) =>
      Panics "interface conversion: interface {} is not authentication.Status"
  | None =>
      Panics "interface conversion: interface {} is nil, not authentication.Status"
  end.

(** Some layer of the context was put there by [With]. *)
Fixpoint set_with_With (ctx : Context) : bool :=
  match ctx with
  | Background => false
  | WithValue parent k v =>
      match v with
      | VStatus _ => bool_decide (k = Str statusKey) || set_with_With parent
      | VOther _ => set_with_With parent
      end
  end.

(** [type SkipRule struct { Method string; Pattern *regexp.Regexp }] *)
Record SkipRule : Type := mkSkipRule {
  Method : string;
  Pattern : Regexp
}.

Definition word_class : regex :=
  Class [("a", "z"); ("A", "Z"); ("0", "9"); ("_", "_")]%char.

(** [var SkipList]: [GET ^/challenges$] and [GET ^/users/[a-zA-Z0-9_]+$]. *)
Definition SkipList : list SkipRule :=
  [ mkSkipRule "GET" (mkRegexp true (Lit "/challenges") true);
    mkSkipRule "GET"
      (mkRegexp true (Cat (Lit "/users/") (Plus word_class)) true) ].

(** The request as the middleware reads it: method, [URL.EscapedPath()],
    [URL.String()], the triple of [BasicAuth()] and the headers. *)
Record Request : Type := mkRequest {
  Request_Method : string;
  URL_EscapedPath : string;
  URL_String : string;
  BasicAuth : string * string * bool;
  Header : list (string * string)
}.

(** [r.Header.Get(key)]: the first value of the key, or the empty string.
    The keys of [Header] are in canonical form, as [net/http] stores them. *)
Fixpoint Header_Get (h : list (string * string)) (key : string) : string :=
  match h with
  | [] => ""
  | (k, v) :: rest => if String.eqb k key then v else Header_Get rest key
  end.

(** Modelled from the spec: [model.Authentication], which is not among the
    sources; the persisted tuple of section 3. *)
Record AuthenticationRecord : Type := mkAuthenticationRecord {
  Auth_Challenge : string;
  Auth_Method : string;
  Auth_URL : string;
  Auth_Address : string;
  Auth_Signature : string
}.

(** The functions the middleware calls in other packages, over a replay
    ledger of type [Ledger]. The two model functions return the Go pair
    (record or nil, error or nil); [CreateAuthentication] also returns the
    ledger it leaves. *)
Record Collaborators (Ledger : Type) : Type := mkCollaborators {
  CheckChallenge : Context -> string -> option error;
  VerifyChallenge : Context -> string -> string -> string -> option error;
  LoadAuthenticationByChallenge :
    Ledger -> string -> option AuthenticationRecord * option error;
  CreateAuthentication :
    Ledger -> string -> string -> string -> string -> string ->
    option AuthenticationRecord * option error * Ledger;
  livemode_Get : Context -> bool
}.
Arguments CheckChallenge {Ledger} _ _ _.
Arguments VerifyChallenge {Ledger} _ _ _ _ _.
Arguments LoadAuthenticationByChallenge {Ledger} _ _ _.
Arguments CreateAuthentication {Ledger} _ _ _ _ _ _ _.
Arguments livemode_Get {Ledger} _ _.

(** What the middleware does to the outside. *)
Inductive Event : Type :=
| Logf (format : string) (args : list any)
| Handler_ServeHTTPC (ctx : Context) (r : Request)
| respond_Error (ctx : Context) (err : error).

(** The end of one run: the last value of [withStatus], the events in
    order, and the ledger. *)
Record Outcome (Ledger : Type) : Type := mkOutcome {
  withStatus : Context;
  events : list Event;
  ledger : Ledger
}.
Arguments mkOutcome {Ledger} _ _ _.
Arguments withStatus {Ledger} _.
Arguments events {Ledger} _.
Arguments ledger {Ledger} _.

Section Middleware.
Context {Ledger : Type} (deps : Collaborators Ledger).

(** The loop over [SkipList]. *)
Definition skip_loop (rules : list SkipRule) (r : Request) : bool :=
  fold_left
    (fun skip s =>
       if String.eqb (Method s) (Request_Method r)
          && MatchString (Pattern s) (URL_EscapedPath r)
       then true else skip)
    rules false.

(** The closure [failedAuth] with what it captures. *)
Definition failedAuth (skip : bool) (ctx : Context) (r : Request)
    (address challenge signature : string) (l : Ledger) (err : error)
  : panics (Outcome Ledger) :=
  if skip then
    let withStatus := With ctx (mkStatus AutStSkipped "") in
    st ← Get withStatus;
    Returns (mkOutcome withStatus
      [ Logf "Authentication: status=%q livemode=%t"
          [Str (Status_Status st); Bool (livemode_Get deps ctx)];
        Handler_ServeHTTPC withStatus r ] l)
  else
    let withStatus := With ctx (mkStatus AutStFailed "") in
    st ← Get withStatus;
    Returns (mkOutcome withStatus
      [ Logf "Authentication: status=%q livemode=%t address=%q challenge=%q signature=%q"
          [Str (Status_Status st); Bool (livemode_Get deps ctx);
           Str address; Str challenge; Str signature];
        respond_Error withStatus (Trace err) ] l).

Definition challenge_already_used : error :=
  NewUserError None 400 "challenge_already_used"
    "The challenge you provided was already used. You must resolve a new challenge for each API request.".

(** [func (m middleware) ServeHTTPC(ctx, w, r)]. The first value of
    [withStatus], Failed with the empty address, is assigned again on every
    path before it is read. *)
Definition ServeHTTPC (ctx : Context) (r : Request) (l : Ledger)
  : panics (Outcome Ledger) :=
  let '(address, signature, _) := BasicAuth r in
  let challenge := Header_Get (Header r) "Authorization-Challenge" in
  let skip := skip_loop SkipList r in
  let failedAuth := failedAuth skip ctx r address challenge signature in
  match CheckChallenge deps ctx challenge with
  | Some err => failedAuth l (Trace err)
  | None =>
  match VerifyChallenge deps ctx challenge address signature with
  | Some err => failedAuth l (Trace err)
  | None =>
  let '(auth, err) := LoadAuthenticationByChallenge deps l challenge in
  match err, auth with
  | Some err, _ => failedAuth l (Trace err)
  | None, Some _ =>
      failedAuth l
        (NewUserError err 400 "challenge_already_used"
           "The challenge you provided was already used. You must resolve a new challenge for each API request.")
  | None, None =>
  let '(auth, err, l') :=
    CreateAuthentication deps l (Request_Method r) (URL_String r)
      challenge address signature in
  match err with
  | Some err => failedAuth l' (Trace err)
  | None =>
      let withStatus := With ctx (mkStatus AutStSucceeded address) in
      st ← Get withStatus;
      Returns (mkOutcome withStatus
        [ Logf "Authentication: status=%q livemode=%t address=%q challenge=%q signature=%q"
            [Str (Status_Status st); Bool (livemode_Get deps ctx);
             Str address; Str challenge; Str signature];
          Handler_ServeHTTPC withStatus r ] l')
  end
  end
  end
  end.

End Middleware.

(** *** The outcome, read *)

(** What the middleware takes from the request: the address and the
    signature of [BasicAuth()], the challenge header. *)
Definition Request_address (r : Request) : string := (BasicAuth r).1.1.
Definition Request_signature (r : Request) : string := (BasicAuth r).1.2.
Definition Request_challenge (r : Request) : string :=
  Header_Get (Header r) "Authorization-Challenge".

Definition handler_invoked {Ledger : Type} (o : Outcome Ledger) : bool :=
  existsb (fun ev => match ev with Handler_ServeHTTPC _ _ => true | _ => false end)
    (events o).

Definition error_responses {Ledger : Type} (o : Outcome Ledger) : list error :=
  omap (fun ev => match ev with respond_Error _ err => Some err | _ => None end)
    (events o).

(** Skip eligibility in the spec's words: some rule of the list has the
    request's method and a pattern that matches its path. *)
Definition skip_eligible (rules : list SkipRule) (r : Request) : bool :=
  existsb
    (fun s => String.eqb (Method s) (Request_Method r)
              && MatchString (Pattern s) (URL_EscapedPath r))
    rules.

(** A name of one or more bytes, each of [a-zA-Z0-9_]. *)
Definition is_word (s : string) : bool :=
  all_in_class [("a", "z"); ("A", "Z"); ("0", "9"); ("_", "_")]%char s.

(** The sentence of section 4.4, step 5, in the spec's words: a challenge
    that the lookup finds in the ledger ends in Failed with
    [challenge_already_used], on every route. *)
Definition replay_always_fails : Prop :=
  forall (Ledger : Type) (deps : Collaborators Ledger) (ctx : Context)
         (r : Request) (l : Ledger) (found : AuthenticationRecord),
    CheckChallenge deps ctx (Request_challenge r) = None ->
    VerifyChallenge deps ctx (Request_challenge r) (Request_address r)
      (Request_signature r) = None ->
    LoadAuthenticationByChallenge deps l (Request_challenge r)
      = (Some found, None) ->
    exists o,
      ServeHTTPC deps ctx r l = Returns o
      /\ Get (withStatus o) = Returns (mkStatus AutStFailed "")
      /\ error_responses o = [Trace challenge_already_used].

End Authentication.

(** ** [register] and [mint/model]: the records of the two stores *)

Module Register.

(** Modelled from the spec: [register.UsrStatus] and its constants, which
    are not among the sources; section 3 gives the two values. *)
Inductive UsrStatus : Type :=
| UsrStUnverified
| UsrStVerified.

#[global] Instance UsrStatus_eq_dec : EqDecision UsrStatus.
Proof. solve_decision. Defined.

(** Modelled from the spec: the register-side [model.User], with the fields
    the endpoint reads and writes. [MintToken] is a [*string]. *)
Record User : Type := mkUser {
  Token : string;
  Created : Z;
  Username : string;
  Secret : string;
  Password : string;
  Status : UsrStatus;
  MintToken : option string
}.

(** Modelled from the spec: the literal string form of a status. *)
Definition UsrStatus_String (s : UsrStatus) : string :=
  match s with
  | UsrStUnverified => "unverified"
  | UsrStVerified => "verified"
  end.

Definition set_Status (u : User) (s : UsrStatus) : User :=
  mkUser (Token u) (Created u) (Username u) (Secret u) (Password u) s
    (MintToken u).

Definition set_MintToken (u : User) (t : option string) : User :=
  mkUser (Token u) (Created u) (Username u) (Secret u) (Password u)
    (Status u) t.

(** [register.CredentialsResource] *)
Record CredentialsResource : Type := mkCredentialsResource {
  Address : string;
  Credentials_Password : string
}.

End Register.

Module MintModel.

(** Modelled from the spec: the mint-side [mintmodel.User]: token,
    username and password credential. *)
Record User : Type := mkUser {
  Token : string;
  Created : Z;
  Username : string;
  Password : string
}.

End MintModel.

(** ** [register/endpoint]: RetrieveUser *)

Module Endpoint.
Import Go.

(** [type RetrieveUser struct { Username string; Secret string }] *)
Record RetrieveUser : Type := mkRetrieveUser {
  Username : string;
  Secret : string
}.

(** [svc.Resp] with its two keys; ["user"] holds the record that
    [model.NewUserResource] formats. *)
Record Resp : Type := mkResp {
  resp_user : Register.User;
  resp_credentials : Register.CredentialsResource
}.

(** How [Execute] ends: it returns its triple, [log.Fatal] stops the
    process, or it panics. *)
Inductive Exit : Type :=
| Return (status : option Z) (resp : option Resp) (err : option error)
| Fatal (details : string)
| Panic (msg : string).

(** The calls [Execute] makes on the two stores, in order. *)
Inductive Event : Type :=
| db_Begin (store : string)
| db_Commit (store : string)
| db_Rollback (store : string)
| Logf (format : string) (args : list any)
| model_LoadUserByUsername (username : string)
| register_Save (user : Register.User)
| mintmodel_LoadUserByUsername (username : string)
| mint_UpdatePassword (u : MintModel.User) (password : string)
| mint_Save (u : MintModel.User)
| mintmodel_CreateUser (username password : string)
| log_Fatal (details : string).

(** The functions of the two model packages and of [register], which are
    not among the sources, over a register store [RegDB] and a mint store
    [MintDB]. A loader returns the Go pair (record or nil, error or nil); a
    writer returns its error and the store it leaves. *)
Record Stores (RegDB MintDB : Type) : Type := mkStores {
  LoadUserByUsername : RegDB -> string -> option Register.User * option error;
  Save : RegDB -> Register.User -> option error * RegDB;
  mint_LoadUserByUsername :
    MintDB -> string -> option MintModel.User * option error;
  UpdatePassword :
    MintDB -> MintModel.User -> string -> option error * MintModel.User;
  mint_User_Save : MintDB -> MintModel.User -> option error * MintDB;
  CreateUser :
    MintDB -> string -> string -> option MintModel.User * option error * MintDB;
  GetMint : string;
  Details : error -> string
}.
Arguments LoadUserByUsername {RegDB MintDB} _ _ _.
Arguments Save {RegDB MintDB} _ _ _.
Arguments mint_LoadUserByUsername {RegDB MintDB} _ _ _.
Arguments UpdatePassword {RegDB MintDB} _ _ _ _.
Arguments mint_User_Save {RegDB MintDB} _ _ _.
Arguments CreateUser {RegDB MintDB} _ _ _ _.
Arguments GetMint {RegDB MintDB} _.
Arguments Details {RegDB MintDB} _ _.

Section Saga.
Context {RegDB MintDB : Type} (S : Stores RegDB MintDB).

(** Modelled from the spec: the transactions of [lib/db], which is not
    among the sources. A store has its committed content; [db.Begin] opens
    a working copy of it, the calls made with the transaction's context
    act on the copy, [db.Commit] publishes the copy and closes the
    transaction, and [db.LoggedRollback] drops the copy of a transaction
    that is still open. *)
Record St : Type := mkSt {
  register_db : RegDB;
  mint_db : MintDB;
  regCtx : RegDB;
  regCtx_open : bool;
  mintCtx : MintDB;
  mintCtx_open : bool;
  trace : list Event
}.

Inductive step (A : Type) : Type :=
| Next (a : A) (st : St)
| Leave (x : Exit) (st : St).
Arguments Next {A} a st.
Arguments Leave {A} x st.

Definition M (A : Type) : Type := St -> step A.

#[local] Instance M_ret : MRet M := fun A a st => Next a st.

#[local] Instance M_bind : MBind M :=
  fun A B (k : A -> M B) (m : M A) st =>
    match m st with
    | Next a st' => k a st'
    | Leave x st' => Leave x st'
    end.

(** [return status, resp, err] *)
Definition return_ {A : Type} (status : option Z) (resp : option Resp)
    (err : option error) : M A :=
  fun st => Leave (Return status resp err) st.

Definition emit (ev : Event) : M unit :=
  fun st =>
    Next tt (mkSt (register_db st) (mint_db st) (regCtx st) (regCtx_open st)
               (mintCtx st) (mintCtx_open st) (trace st ++ [ev])).

Definition Begin_register : M unit :=
  fun st =>
    Next tt (mkSt (register_db st) (mint_db st) (register_db st) true
               (mintCtx st) (mintCtx_open st)
               (trace st ++ [db_Begin "register"])).

Definition Begin_mint : M unit :=
  fun st =>
    Next tt (mkSt (register_db st) (mint_db st) (regCtx st) (regCtx_open st)
               (mint_db st) true (trace st ++ [db_Begin "mint"])).

Definition Commit_register : M unit :=
  fun st =>
    Next tt (mkSt (regCtx st) (mint_db st) (regCtx st) false
               (mintCtx st) (mintCtx_open st)
               (trace st ++ [db_Commit "register"])).

Definition Commit_mint : M unit :=
  fun st =>
    Next tt (mkSt (register_db st) (mintCtx st) (regCtx st) (regCtx_open st)
               (mintCtx st) false (trace st ++ [db_Commit "mint"])).

Definition LoggedRollback_register (st : St) : St :=
  if regCtx_open st then
    mkSt (register_db st) (mint_db st) (register_db st) false
      (mintCtx st) (mintCtx_open st) (trace st ++ [db_Rollback "register"])
  else st.

Definition LoggedRollback_mint (st : St) : St :=
  if mintCtx_open st then
    mkSt (register_db st) (mint_db st) (regCtx st) (regCtx_open st)
      (mint_db st) false (trace st ++ [db_Rollback "mint"])
  else st.

(** Calls with [regCtx]. *)
Definition reg_load (username : string)
  : M (option Register.User * option error) :=
  fun st =>
    Next (LoadUserByUsername S (regCtx st) username)
      (mkSt (register_db st) (mint_db st) (regCtx st) (regCtx_open st)
         (mintCtx st) (mintCtx_open st)
         (trace st ++ [model_LoadUserByUsername username])).

Definition reg_save (user : Register.User) : M (option error) :=
  fun st =>
    let '(err, db) := Save S (regCtx st) user in
    Next err
      (mkSt (register_db st) (mint_db st) db (regCtx_open st)
         (mintCtx st) (mintCtx_open st) (trace st ++ [register_Save user])).

(** Calls with [mintCtx]. *)
Definition mint_load (username : string)
  : M (option MintModel.User * option error) :=
  fun st =>
    Next (mint_LoadUserByUsername S (mintCtx st) username)
      (mkSt (register_db st) (mint_db st) (regCtx st) (regCtx_open st)
         (mintCtx st) (mintCtx_open st)
         (trace st ++ [mintmodel_LoadUserByUsername username])).

Definition mint_update_password (u : MintModel.User) (password : string)
  : M (option error * MintModel.User) :=
  fun st =>
    Next (UpdatePassword S (mintCtx st) u password)
      (mkSt (register_db st) (mint_db st) (regCtx st) (regCtx_open st)
         (mintCtx st) (mintCtx_open st)
         (trace st ++ [mint_UpdatePassword u password])).

Definition mint_save (u : MintModel.User) : M (option error) :=
  fun st =>
    let '(err, db) := mint_User_Save S (mintCtx st) u in
    Next err
      (mkSt (register_db st) (mint_db st) (regCtx st) (regCtx_open st)
         db (mintCtx_open st) (trace st ++ [mint_Save u])).

Definition mint_create (username password : string)
  : M (option MintModel.User * option error) :=
  fun st =>
    let '(u, err, db) := CreateUser S (mintCtx st) username password in
    Next (u, err)
      (mkSt (register_db st) (mint_db st) (regCtx st) (regCtx_open st)
         db (mintCtx_open st)
         (trace st ++ [mintmodel_CreateUser username password])).

(** [log.Fatal(details)]: the process exits, no deferred call runs. *)
Definition fatal {A : Type} (details : string) : M A :=
  fun st =>
    Leave (Fatal details)
      (mkSt (register_db st) (mint_db st) (regCtx st) (regCtx_open st)
         (mintCtx st) (mintCtx_open st) (trace st ++ [log_Fatal details])).

Definition panic {A : Type} (msg : string) : M A :=
  fun st => Leave (Panic msg) st.

Definition user_not_found : error :=
  NewUserError None 400 "user_not_found"
    "The username and secret pair you specified is not associated with any existing user.".

(** Lines 84 to 93: mark the user verified. *)
Definition verify_block (user : Register.User) : M Register.User :=
  if decide (Register.Status user <> Register.UsrStVerified) then
    let user := Register.set_Status user Register.UsrStVerified in
    err ← reg_save user;
    match err with
    | Some err => return_ None None (Some (Trace err))
    | None =>
        emit (Logf "Updated user: id=%s created=%q username=%s status=%s"
                [Str (Register.Token user); Time (Register.Created user);
                 Str (Register.Username user);
                 Str (Register.UsrStatus_String (Register.Status user))]) ;;
        mret user
    end
  else mret user.

(** Lines 99 to 139: create or update the user on the mint. Reading the
    token of a mint user that came back nil without an error panics. *)
Definition mint_block (user : Register.User) : M Register.User :=
  match Register.MintToken user with
  | Some _ => mret user
  | None =>
      Begin_mint ;;
      r ← mint_load (Register.Username user);
      let '(u, err) := r in
      match err with
      | Some err => return_ None None (Some (Trace err))
      | None =>
          u ← match u with
               | Some u =>
                   r ← mint_update_password u (Register.Password user);
                   let '(err, u) := r in
                   match err with
                   | Some err => return_ None None (Some (Trace err))
                   | None =>
                       err ← mint_save u;
                       match err with
                       | Some err => return_ None None (Some (Trace err))
                       | None =>
                           emit (Logf "Updated mint user: id=%s created=%q username=%s"
                                   [Str (MintModel.Token u);
                                    Time (MintModel.Created u);
                                    Str (MintModel.Username u)]) ;;
                           mret u
                       end
                   end
               | None =>
                   r ← mint_create (Register.Username user)
                          (Register.Password user);
                   let '(u, err) := r in
                   match err, u with
                   | Some err, _ => fatal (Details S err)
                   | None, None =>
                       panic "invalid memory address or nil pointer dereference"
                   | None, Some u =>
                       emit (Logf "Created mint user: id=%s created=%q username=%s"
                               [Str (MintModel.Token u);
                                Time (MintModel.Created u);
                                Str (MintModel.Username u)]) ;;
                       mret u
                   end
               end;
          let user := Register.set_MintToken user (Some (MintModel.Token u)) in
          err ← reg_save user;
          match err with
          | Some err => return_ None None (Some (Trace err))
          | None => Commit_mint ;; mret user
          end
      end
  end.

Definition body (e : RetrieveUser) : M unit :=
  Begin_register ;;
  emit (Logf "User retrieval: username=%s" [Str (Username e)]) ;;
  r ← reg_load (Username e);
  let '(user, err) := r in
  match err, user with
  | Some err, _ => return_ None None (Some (Trace err))
  | None, None => return_ None None (Some (Trace user_not_found))
  | None, Some user =>
      if negb (String.eqb (Register.Secret user) (Secret e)) then
        return_ None None (Some (Trace user_not_found))
      else
        user ← verify_block user;
        user ← mint_block user;
        Commit_register ;;
        return_ (Some 201)
          (Some (mkResp user
                   (Register.mkCredentialsResource
                      (Register.Username user +:+ "@" +:+ GetMint S)
                      (Register.Password user))))
          None
  end.

(** The state [Execute] is called in: the two stores, no transaction. *)
Definition initial (reg : RegDB) (mint : MintDB) : St :=
  mkSt reg mint reg false mint false [].

(** [func (e *RetrieveUser) Execute(ctx)], returning status, response and
    error: the
    body, then on a return the deferred rollbacks, last deferred first. *)
Definition Execute (e : RetrieveUser) (reg : RegDB) (mint : MintDB)
  : Exit * St :=
  match body e (initial reg mint) with
  | Next _ st => (Return None None None, st)
  | Leave (Return status resp err) st =>
      (Return status resp err,
       LoggedRollback_register (LoggedRollback_mint st))
  | Leave (Fatal details) st => (Fatal details, st)
  | Leave (Panic msg) st =>
      (Panic msg, LoggedRollback_register (LoggedRollback_mint st))
  end.

End Saga.

(** *** The trace, read *)

Definition is_write (ev : Event) : bool :=
  match ev with
  | register_Save _ | mint_UpdatePassword _ _ | mint_Save _
  | mintmodel_CreateUser _ _ => true
  | _ => false
  end.

Definition is_commit (ev : Event) : bool :=
  match ev with
  | db_Commit _ => true
  | _ => false
  end.

Definition is_CreateUser (ev : Event) : bool :=
  match ev with
  | mintmodel_CreateUser _ _ => true
  | _ => false
  end.

End Endpoint.

(** ** Reference stores

    Instances of the absent packages, on which the gate and the endpoint
    run on concrete requests. *)

Module Reference.
Import Go.

(** Modelled from the spec: the replay ledger of section 4.3, absent from
    the sources: the records keyed by challenge, a lookup, and an insert
    that refuses a challenge already there. The challenge check and the
    signature check are the two predicates given. *)
Definition ledgerCollaborators (fresh : string -> bool)
    (signed : string -> string -> string -> bool) (live : bool)
  : Authentication.Collaborators (gmap string Authentication.AuthenticationRecord) :=
  Authentication.mkCollaborators _
    (fun _ challenge =>
       if fresh challenge then None
       else Some (NewUserError None 400 "challenge_invalid" "The challenge is invalid."))
    (fun _ challenge address signature =>
       if signed challenge address signature then None
       else Some (NewUserError None 400 "signature_invalid" "The signature is invalid."))
    (fun l challenge => (l !! challenge, None))
    (fun l method url challenge address signature =>
       match l !! challenge with
       | Some _ =>
           (None, Some (Newf "duplicate challenge: %q" [Str challenge]), l)
       | None =>
           let a := Authentication.mkAuthenticationRecord challenge method url
                      address signature in
           (Some a, None, <[challenge := a]> l)
       end)
    (fun _ => live).

(** A toy signature: the challenge followed by the address. *)
Definition toy_signed (challenge address signature : string) : bool :=
  String.eqb signature (challenge +:+ "/" +:+ address).

Definition nonempty (s : string) : bool := negb (String.eqb s "").

Definition deps : Authentication.Collaborators
                    (gmap string Authentication.AuthenticationRecord) :=
  ledgerCollaborators nonempty toy_signed true.

Definition request (method path address signature challenge : string)
  : Authentication.Request :=
  Authentication.mkRequest method path path (address, signature, true)
    [("Authorization-Challenge", challenge)].

(** The same collaborators over a ledger whose lookup fails. *)
Definition unavailable_deps : Authentication.Collaborators
                                (gmap string Authentication.AuthenticationRecord) :=
  Authentication.mkCollaborators _
    (Authentication.CheckChallenge deps)
    (Authentication.VerifyChallenge deps)
    (fun _ _ => (None, Some (Newf "ledger unavailable" [])))
    (Authentication.CreateAuthentication deps)
    (Authentication.livemode_Get deps).

(** Modelled from the spec: the two user stores of section 3, absent from
    the sources: users keyed by their unique username; a save writes the
    record under its username, a creation refuses a username already there
    and fails altogether when [create_fails]. *)
Definition userStores (mint : string) (create_fails : bool)
  : Endpoint.Stores (gmap string Register.User) (gmap string MintModel.User) :=
  Endpoint.mkStores _ _
    (fun db username => (db !! username, None))
    (fun db user => (None, <[Register.Username user := user]> db))
    (fun db username => (db !! username, None))
    (fun _ u password =>
       (None, MintModel.mkUser (MintModel.Token u) (MintModel.Created u)
                (MintModel.Username u) password))
    (fun db u => (None, <[MintModel.Username u := u]> db))
    (fun db username password =>
       match db !! username with
       | Some _ => (None, Some (Newf "username taken: %q" [Str username]), db)
       | None =>
           if create_fails then
             (None, Some (Newf "mint store unavailable" []), db)
           else
             let u := MintModel.mkUser ("mint_" +:+ username) 0 username
                        password in
             (Some u, None, <[username := u]> db)
       end)
    mint
    (fun _ => "error details").

Definition alice (status : Register.UsrStatus) (token : option string)
  : Register.User :=
  Register.mkUser "user_alice" 1700000000 "alice" "S1" "pw-alice" status token.

(** The record of challenge [c1], redeemed once by address [A]. *)
Definition c1_record : Authentication.AuthenticationRecord :=
  Authentication.mkAuthenticationRecord "c1" "POST" "/offers" "A" "c1/A".

Definition c1_used : gmap string Authentication.AuthenticationRecord :=
  {[ "c1" := c1_record ]}.

(** The same signed challenge, presented on a route of the skip list and on
    a route outside it. *)
Definition c1_on_challenges : Authentication.Request :=
  request "GET" "/challenges" "A" "c1/A" "c1".

Definition c1_on_offers : Authentication.Request :=
  request "POST" "/offers" "A" "c1/A" "c1".

(** A request without credentials on a route of the skip list. *)
Definition anonymous_profile : Authentication.Request :=
  Authentication.mkRequest "GET" "/users/alice" "/users/alice" ("", "", false) [].

Definition stores
  : Endpoint.Stores (gmap string Register.User) (gmap string MintModel.User) :=
  userStores "mint.example" false.

Definition failing_stores
  : Endpoint.Stores (gmap string Register.User) (gmap string MintModel.User) :=
  userStores "mint.example" true.

Definition register_with (u : Register.User) : gmap string Register.User :=
  {[ Register.Username u := u ]}.

Definition mint_alice : MintModel.User :=
  MintModel.mkUser "mint_alice" 0 "alice" "pw-alice".

(** A mint user of the same username left by an earlier, unfinished run,
    with another password. *)
Definition mint_leftover (password : string) : MintModel.User :=
  MintModel.mkUser "mint_old" 5 "alice" password.

End Reference.

Import Go Model.

Example big_String_samples :
  big_String 0 = "0" /\ big_String 1700000000 = "1700000000"
  /\ big_String (-42) = "-42"
  /\ big_String (2 ^ 64) = "18446744073709551616".
Proof. repeat split; vm_compute; reflexivity. Qed.

Example big_SetString_samples :
  big_SetString "007" = Some 7 /\ big_SetString "+5" = Some 5
  /\ big_SetString "-0" = Some 0 /\ big_SetString "" = None
  /\ big_SetString "-" = None /\ big_SetString "1_000" = None
  /\ big_SetString "12a" = None.
Proof. repeat split; vm_compute; reflexivity. Qed.

(** The two patterns of the skip list, and the anchors. *)
Example SkipList_samples :
  let skip method path :=
    Authentication.skip_loop Authentication.SkipList
      (Reference.request method path "" "" "") in
  skip "GET" "/challenges" = true /\ skip "GET" "/users/alice_1" = true
  /\ skip "GET" "/users/" = false /\ skip "GET" "/users/a/b" = false
  /\ skip "POST" "/challenges" = false /\ skip "GET" "/challenges/x" = false
  /\ skip "GET" "/v1/challenges" = false.
Proof. repeat split; vm_compute; reflexivity. Qed.

Example MatchString_samples :
  Regexp.MatchString (Regexp.mkRegexp false (Regexp.Lit "ab") false) "xxabyy"
  = true
  /\ Regexp.MatchString (Regexp.mkRegexp true (Regexp.Lit "ab") false) "xxabyy"
     = false
  /\ Regexp.MatchString (Regexp.mkRegexp false (Regexp.Lit "ab") true) "xxab"
     = true.
Proof. repeat split; vm_compute; reflexivity. Qed.

(** ** Decimal round trip of [big.Int] *)

Section DecimalRoundTrip.

Lemma digit_val_char (d : Z) :
  0 <= d < 10 -> digit_val (digit_char d) = Some d.
Proof.
  intros Hd.
  assert (Hcases : d = 0 \/ d = 1 \/ d = 2 \/ d = 3 \/ d = 4 \/ d = 5
                   \/ d = 6 \/ d = 7 \/ d = 8 \/ d = 9) by lia.
  repeat (destruct Hcases as [-> | Hcases]; [reflexivity |]).
  subst d; reflexivity.
Qed.

Lemma scan_digits_step (v d : Z) (rest : string) :
  0 <= d < 10 ->
  scan_digits v (String (digit_char d) rest) = scan_digits (v * 10 + d) rest.
Proof. intros Hd. cbn [scan_digits]. now rewrite digit_val_char. Qed.

(** Scanning what [digits_acc] printed in front of [acc] is scanning [acc]
    from [n]. *)
Lemma scan_digits_acc (fuel : nat) :
  forall (n : Z) (acc : string),
    0 <= n < 10 ^ Z.of_nat fuel ->
    scan_digits 0 (digits_acc fuel n acc) = scan_digits n acc.
Proof.
  induction fuel as [| fuel IH]; intros n acc Hn.
  - cbn in Hn. assert (n = 0) as -> by lia. reflexivity.
  - cbn [digits_acc].
    assert (Hmod : 0 <= n mod 10 < 10) by (apply Z.mod_pos_bound; lia).
    assert (Hdiv : n = 10 * (n / 10) + n mod 10) by (apply Z.div_mod; lia).
    destruct (Z.eqb_spec (n / 10) 0) as [Hz | Hnz].
    + rewrite scan_digits_step by exact Hmod. f_equal. lia.
    + rewrite IH.
      * rewrite scan_digits_step by exact Hmod. f_equal. lia.
      * rewrite Nat2Z.inj_succ, Z.pow_succ_r in Hn by lia.
        split; [apply Z.div_pos; lia |].
        apply Z.div_lt_upper_bound; lia.
Qed.

Lemma digits_acc_cons (fuel : nat) :
  forall (n : Z) (c : ascii) (acc : string),
    exists c' s', digits_acc fuel n (String c acc) = String c' s'.
Proof.
  induction fuel as [| fuel IH]; intros n c acc; cbn [digits_acc].
  - eauto.
  - destruct (n / 10 =? 0); eauto.
Qed.

Lemma nat_digits_nonempty (n : Z) : nat_digits n <> "".
Proof.
  unfold nat_digits. destruct (n =? 0); [discriminate |].
  cbn [digits_acc]. destruct (n / 10 =? 0); [discriminate |].
  destruct (digits_acc_cons (Z.to_nat (Z.log2 n)) (n / 10)
              (digit_char (n mod 10)) "") as (c & s & ->).
  discriminate.
Qed.

Lemma scan_nat_digits (n : Z) :
  0 <= n -> scan_nat (nat_digits n) = Some n.
Proof.
  intros Hn.
  assert (Hscan : scan_digits 0 (nat_digits n) = Some n).
  { unfold nat_digits. destruct (Z.eqb_spec n 0) as [-> | Hnz]; [reflexivity |].
    rewrite scan_digits_acc; [reflexivity |].
    split; [exact Hn |].
    assert (Hpos : 0 < n) by lia.
    pose proof (Z.log2_spec n Hpos) as [_ Hlt].
    pose proof (Z.log2_nonneg n) as Hlog.
    rewrite Nat2Z.inj_succ, Z2Nat.id by lia.
    eapply Z.lt_le_trans; [exact Hlt |].
    apply Z.pow_le_mono_l; lia. }
  pose proof (nat_digits_nonempty n) as Hne.
  unfold scan_nat. destruct (nat_digits n); [congruence | exact Hscan].
Qed.

(** A string of digits carries no sign, so [SetString] scans it as it is. *)
Lemma big_SetString_unsigned (s : string) (n : Z) :
  scan_nat s = Some n -> big_SetString s = Some n.
Proof.
  destruct s as [| c rest]; [discriminate |].
  intros Hscan. unfold big_SetString.
  destruct (Ascii.eqb_spec c "-") as [-> | _]; [discriminate |].
  destruct (Ascii.eqb_spec c "+") as [-> | _]; [discriminate |].
  exact Hscan.
Qed.

Lemma big_SetString_String (x : Z) :
  big_SetString (big_String x) = Some x.
Proof.
  unfold big_String. destruct (Z.ltb_spec x 0) as [Hneg | Hpos].
  - cbn [big_SetString]. change (Ascii.eqb "-" "-") with true. cbn match.
    rewrite scan_nat_digits by lia. cbn. f_equal. lia.
  - apply big_SetString_unsigned, scan_nat_digits, Hpos.
Qed.

End DecimalRoundTrip.

(** C7. For every Amount, of any magnitude, the decimal string that [Value]
    produces is read back by [Scan] as the same number, whatever the
    receiver held before and whether the driver hands the column back as a
    string or as a byte slice. *)
Theorem Amount_Value_Scan_roundtrip :
  forall (b old : Amount),
    Amount_Value b = Ok (Str (big_String b))
    /\ Amount_Scan old (Str (big_String b)) = Ok b
    /\ Amount_Scan old (Bytes (big_String b)) = Ok b.
Proof.
  intros b old. unfold Amount_Value, Amount_Scan.
  rewrite big_SetString_String. repeat split.
Qed.

(** The round trip beyond the 64-bit range, evaluated. *)
Example Amount_roundtrip_beyond_int64 :
  Amount_Scan 0 (Str (big_String (- (2 ^ 100)))) = Ok (- (2 ^ 100))
  /\ big_String (2 ^ 64) = "18446744073709551616".
Proof. split; vm_compute; reflexivity. Qed.

(** C10. [OfStatus.Scan] takes every string and every byte slice as it is,
    inside the enumeration or not, and fails exactly on the other types. *)
Theorem OfStatus_Scan_accepts_any_text :
  (forall (s : OfStatus) (v : string),
      OfStatus_Scan s (Str v) = Ok v /\ OfStatus_Scan s (Bytes v) = Ok v)
  /\ (forall (s : OfStatus) (src : any),
         (exists e, OfStatus_Scan s src = Err e) <-> is_text src = false)
  /\ (exists v : string,
         v <> OfStActive /\ v <> OfStClosed
         /\ OfStatus_Scan OfStActive (Str v) = Ok v).
Proof.
  split; [| split].
  - intros s v. split; reflexivity.
  - intros s src. destruct src; cbn; split; intros H;
      try reflexivity; try discriminate; try (destruct H; discriminate);
      eauto.
  - exists "pending". repeat split; discriminate.
Qed.

(** ** The authentication middleware *)

Section Gate.
Import Regexp Authentication.
Context {Ledger : Type} (deps : Collaborators Ledger).

Lemma Get_With (ctx : Context) (st : Status) : Get (With ctx st) = Returns st.
Proof.
  unfold Get, With. cbn [Value].
  destruct (decide (Str statusKey = Str statusKey)); [reflexivity | congruence].
Qed.

(** The loop over the rules computes the disjunction of the rules. *)
Lemma skip_loop_from (rules : list SkipRule) (r : Request) (b : bool) :
  fold_left
    (fun skip s =>
       if String.eqb (Method s) (Request_Method r)
          && MatchString (Pattern s) (URL_EscapedPath r)
       then true else skip)
    rules b
  = b || skip_eligible rules r.
Proof.
  revert b. induction rules as [| s rules IH]; intros b; cbn.
  - now rewrite orb_false_r.
  - rewrite IH.
    destruct (String.eqb (Method s) (Request_Method r)
              && MatchString (Pattern s) (URL_EscapedPath r));
      cbn; [symmetry; apply orb_true_r | reflexivity].
Qed.

Lemma skip_loop_eligible (rules : list SkipRule) (r : Request) :
  skip_loop rules r = skip_eligible rules r.
Proof. unfold skip_loop. now rewrite skip_loop_from. Qed.

(** What [failedAuth] leaves, by the skip flag. *)
Lemma failedAuth_skip (ctx : Context) (r : Request)
    (address challenge signature : string) (l : Ledger) (err : error) :
  failedAuth deps true ctx r address challenge signature l err
  = Returns (mkOutcome (With ctx (mkStatus AutStSkipped ""))
      [ Logf "Authentication: status=%q livemode=%t"
          [Str AutStSkipped; Bool (livemode_Get deps ctx)];
        Handler_ServeHTTPC (With ctx (mkStatus AutStSkipped "")) r ] l).
Proof. unfold failedAuth. rewrite Get_With. reflexivity. Qed.

Lemma failedAuth_fail (ctx : Context) (r : Request)
    (address challenge signature : string) (l : Ledger) (err : error) :
  failedAuth deps false ctx r address challenge signature l err
  = Returns (mkOutcome (With ctx (mkStatus AutStFailed ""))
      [ Logf "Authentication: status=%q livemode=%t address=%q challenge=%q signature=%q"
          [Str AutStFailed; Bool (livemode_Get deps ctx);
           Str address; Str challenge; Str signature];
        respond_Error (With ctx (mkStatus AutStFailed "")) (Trace err) ] l).
Proof. unfold failedAuth. rewrite Get_With. reflexivity. Qed.

(** Every call of [failedAuth] returns, with Skipped or Failed and the empty
    address, and leaves the ledger it was given. *)
Lemma failedAuth_returns (skip : bool) (ctx : Context) (r : Request)
    (address challenge signature : string) (l : Ledger) (err : error) :
  exists o,
    failedAuth deps skip ctx r address challenge signature l err = Returns o
    /\ Get (withStatus o)
       = Returns (mkStatus (if skip then AutStSkipped else AutStFailed) "")
    /\ handler_invoked o = skip
    /\ error_responses o = (if skip then [] else [Trace err])
    /\ ledger o = l.
Proof.
  destruct skip; [rewrite failedAuth_skip | rewrite failedAuth_fail];
    eexists; (split; [reflexivity |]); cbn [withStatus];
    rewrite Get_With; repeat split.
Qed.

(** [ServeHTTPC] over the three values it reads from the request. *)
Lemma ServeHTTPC_read (ctx : Context) (r : Request) (l : Ledger) :
  ServeHTTPC deps ctx r l
  = let address := Request_address r in
    let signature := Request_signature r in
    let challenge := Request_challenge r in
    let failed :=
      failedAuth deps (skip_eligible SkipList r) ctx r address challenge
        signature in
    match CheckChallenge deps ctx challenge with
    | Some err => failed l (Trace err)
    | None =>
    match VerifyChallenge deps ctx challenge address signature with
    | Some err => failed l (Trace err)
    | None =>
    match LoadAuthenticationByChallenge deps l challenge with
    | (_, Some err) => failed l (Trace err)
    | (Some _, None) => failed l challenge_already_used
    | (None, None) =>
    match CreateAuthentication deps l (Request_Method r) (URL_String r)
            challenge address signature with
    | (_, Some err, l') => failed l' (Trace err)
    | (_, None, l') =>
        Returns (mkOutcome (With ctx (mkStatus AutStSucceeded address))
          [ Logf "Authentication: status=%q livemode=%t address=%q challenge=%q signature=%q"
              [Str AutStSucceeded; Bool (livemode_Get deps ctx);
               Str address; Str challenge; Str signature];
            Handler_ServeHTTPC (With ctx (mkStatus AutStSucceeded address)) r ]
          l')
    end
    end
    end
    end.
Proof.
  unfold ServeHTTPC, Request_address, Request_signature, Request_challenge.
  rewrite skip_loop_eligible.
  destruct (BasicAuth r) as [[address signature] ok]. cbn [fst snd].
  destruct (CheckChallenge deps ctx _); [reflexivity |].
  destruct (VerifyChallenge deps ctx _ _ _); [reflexivity |].
  destruct (LoadAuthenticationByChallenge deps l _) as [[found |] [err |]];
    reflexivity.
Qed.

(** C2. When the challenge check or the signature check fails, a request
    whose method and path match a rule of the skip list ends Skipped with
    the empty address and the next handler is called with that status; a
    request that matches no rule ends Failed, the traced error is the
    response and the next handler is not called. *)
Theorem validation_failure_skipped_or_failed
    (ctx : Context) (r : Request) (l : Ledger) (err : error) :
  CheckChallenge deps ctx (Request_challenge r) = Some err
  \/ (CheckChallenge deps ctx (Request_challenge r) = None
      /\ VerifyChallenge deps ctx (Request_challenge r) (Request_address r)
           (Request_signature r) = Some err) ->
  exists o,
    ServeHTTPC deps ctx r l = Returns o
    /\ ledger o = l
    /\ if skip_eligible SkipList r then
         Get (withStatus o) = Returns (mkStatus AutStSkipped "")
         /\ In (Handler_ServeHTTPC (withStatus o) r) (events o)
         /\ error_responses o = []
       else
         Get (withStatus o) = Returns (mkStatus AutStFailed "")
         /\ handler_invoked o = false
         /\ error_responses o = [Trace (Trace err)].
Proof.
  intros Hfail.
  assert (Hrun :
    ServeHTTPC deps ctx r l
    = failedAuth deps (skip_eligible SkipList r) ctx r (Request_address r)
        (Request_challenge r) (Request_signature r) l (Trace err)).
  { rewrite ServeHTTPC_read. cbv zeta.
    destruct Hfail as [-> | [-> ->]]; reflexivity. }
  rewrite Hrun.
  destruct (skip_eligible SkipList r).
  - rewrite failedAuth_skip. eexists. split; [reflexivity |].
    cbn [withStatus events ledger]. rewrite Get_With.
    repeat split. right; left; reflexivity.
  - rewrite failedAuth_fail. eexists. split; [reflexivity |].
    cbn [withStatus events ledger]. rewrite Get_With. repeat split.
Qed.

(** C1, amended. When both checks pass and the lookup finds the challenge
    in the ledger, a request that matches no rule of the skip list ends
    Failed, the response is the traced [challenge_already_used] user error
    (HTTP 400) and the next handler is not called; a request that matches a
    rule ends Skipped with the empty address and the next handler is
    called. The ledger is left as it was. *)
Theorem replay_failed_unless_skipped
    (ctx : Context) (r : Request) (l : Ledger) (found : AuthenticationRecord) :
  CheckChallenge deps ctx (Request_challenge r) = None ->
  VerifyChallenge deps ctx (Request_challenge r) (Request_address r)
    (Request_signature r) = None ->
  LoadAuthenticationByChallenge deps l (Request_challenge r)
    = (Some found, None) ->
  exists o,
    ServeHTTPC deps ctx r l = Returns o
    /\ ledger o = l
    /\ if skip_eligible SkipList r then
         Get (withStatus o) = Returns (mkStatus AutStSkipped "")
         /\ In (Handler_ServeHTTPC (withStatus o) r) (events o)
         /\ error_responses o = []
       else
         Get (withStatus o) = Returns (mkStatus AutStFailed "")
         /\ handler_invoked o = false
         /\ error_responses o
            = [Trace (NewUserError None 400 "challenge_already_used"
                        "The challenge you provided was already used. You must resolve a new challenge for each API request.")].
Proof.
  intros Hcheck Hverify Hload.
  rewrite ServeHTTPC_read. cbv zeta. rewrite Hcheck, Hverify, Hload.
  destruct (skip_eligible SkipList r).
  - rewrite failedAuth_skip. eexists. split; [reflexivity |].
    cbn [withStatus events ledger]. rewrite Get_With.
    repeat split. right; left; reflexivity.
  - rewrite failedAuth_fail. eexists. split; [reflexivity |].
    cbn [withStatus events ledger]. rewrite Get_With. repeat split.
Qed.

(** C9. When the challenge check, the signature check, the lookup and the
    insertion all succeed, the status Succeeded with the claimed address is
    attached to the context and the next handler is called with it; and
    every run ends with a status attached whose address is empty unless the
    status is Succeeded. *)
Theorem success_attaches_claimed_address
    (ctx : Context) (r : Request) (l : Ledger) :
  (forall (auth : option AuthenticationRecord) (l' : Ledger),
      CheckChallenge deps ctx (Request_challenge r) = None ->
      VerifyChallenge deps ctx (Request_challenge r) (Request_address r)
        (Request_signature r) = None ->
      LoadAuthenticationByChallenge deps l (Request_challenge r)
        = (None, None) ->
      CreateAuthentication deps l (Request_Method r) (URL_String r)
        (Request_challenge r) (Request_address r) (Request_signature r)
        = (auth, None, l') ->
      exists o,
        ServeHTTPC deps ctx r l = Returns o
        /\ Get (withStatus o)
           = Returns (mkStatus AutStSucceeded (Request_address r))
        /\ In (Handler_ServeHTTPC (withStatus o) r) (events o)
        /\ error_responses o = []
        /\ ledger o = l')
  /\ (exists o st,
         ServeHTTPC deps ctx r l = Returns o
         /\ Get (withStatus o) = Returns st
         /\ (Status_Status st <> AutStSucceeded -> Status_Address st = "")).
Proof.
  split.
  - intros auth l' Hcheck Hverify Hload Hcreate.
    rewrite ServeHTTPC_read. cbv zeta.
    rewrite Hcheck, Hverify, Hload, Hcreate.
    eexists. split; [reflexivity |].
    cbn [withStatus events ledger]. rewrite Get_With.
    repeat split. right; left; reflexivity.
  - rewrite ServeHTTPC_read. cbv zeta.
    assert (Hfailed : forall l0 e,
      exists o st,
        failedAuth deps (skip_eligible SkipList r) ctx r (Request_address r)
          (Request_challenge r) (Request_signature r) l0 e = Returns o
        /\ Get (withStatus o) = Returns st
        /\ (Status_Status st <> AutStSucceeded -> Status_Address st = "")).
    { intros l0 e.
      destruct (failedAuth_returns (skip_eligible SkipList r) ctx r
                  (Request_address r) (Request_challenge r)
                  (Request_signature r) l0 e) as (o & Hrun & Hget & _).
      exists o. eexists. split; [exact Hrun |]. split; [exact Hget |].
      reflexivity. }
    destruct (CheckChallenge deps ctx _); [apply Hfailed |].
    destruct (VerifyChallenge deps ctx _ _ _); [apply Hfailed |].
    destruct (LoadAuthenticationByChallenge deps l _) as [[found |] [e |]];
      try apply Hfailed.
    destruct (CreateAuthentication deps l _ _ _ _ _) as [[auth [e |]] l'];
      [apply Hfailed |].
    eexists. eexists. split; [reflexivity |].
    cbn [withStatus]. rewrite Get_With. split; [reflexivity |].
    cbn. congruence.
Qed.

End Gate.

Section GateRuns.
Import Regexp Authentication Reference.

Lemma validation_failure_skipped_or_failed_witness :
  exists o,
    ServeHTTPC deps Background anonymous_profile ∅ = Returns o
    /\ ledger o = ∅
    /\ Get (withStatus o) = Returns (mkStatus AutStSkipped "")
    /\ In (Handler_ServeHTTPC (withStatus o) anonymous_profile) (events o)
    /\ error_responses o = [].
Proof.
  apply (validation_failure_skipped_or_failed deps Background
           anonymous_profile ∅
           (NewUserError None 400 "challenge_invalid"
              "The challenge is invalid.")).
  left. reflexivity.
Defined.

Lemma replay_failed_unless_skipped_witness :
  exists o,
    ServeHTTPC deps Background c1_on_offers c1_used = Returns o
    /\ ledger o = c1_used
    /\ Get (withStatus o) = Returns (mkStatus AutStFailed "")
    /\ handler_invoked o = false
    /\ error_responses o
       = [Trace (NewUserError None 400 "challenge_already_used"
                   "The challenge you provided was already used. You must resolve a new challenge for each API request.")].
Proof.
  apply (replay_failed_unless_skipped deps Background c1_on_offers c1_used
           c1_record); reflexivity.
Defined.

(** C1 as the spec has it fails: on [GET /challenges], a route of the skip
    list, a signed challenge that is already in the ledger ends Skipped and
    the next handler runs; no error is sent. *)
Lemma replay_on_skip_route_is_skipped :
  (exists o,
      ServeHTTPC deps Background c1_on_challenges c1_used = Returns o
      /\ LoadAuthenticationByChallenge deps c1_used
           (Request_challenge c1_on_challenges) = (Some c1_record, None)
      /\ Get (withStatus o) = Returns (mkStatus AutStSkipped "")
      /\ handler_invoked o = true
      /\ error_responses o = [])
  /\ ~ replay_always_fails.
Proof.
  split.
  - eexists. split; [vm_compute; reflexivity |]. repeat split.
  - intros Hclaim.
    destruct (Hclaim _ deps Background c1_on_challenges c1_used c1_record
                eq_refl eq_refl eq_refl) as (o & Hrun & Hget & _).
    vm_compute in Hrun. injection Hrun as <-.
    vm_compute in Hget. discriminate Hget.
Qed.

Lemma success_attaches_claimed_address_witness :
  exists o,
    ServeHTTPC deps Background c1_on_offers ∅ = Returns o
    /\ Get (withStatus o) = Returns (mkStatus AutStSucceeded "A")
    /\ In (Handler_ServeHTTPC (withStatus o) c1_on_offers) (events o)
    /\ error_responses o = []
    /\ ledger o = c1_used.
Proof.
  apply (proj1 (success_attaches_claimed_address deps Background
                  c1_on_offers ∅) (Some c1_record) c1_used); reflexivity.
Defined.

End GateRuns.

(** C8. On a context in which no layer was set with [With], [Get] panics:
    it returns no status, default or other. *)
Theorem Get_panics_when_not_set (ctx : Authentication.Context) :
  Authentication.set_with_With ctx = false ->
  exists msg, Authentication.Get ctx = Panics msg.
Proof.
  unfold Authentication.Get.
  induction ctx as [| parent IH k v]; intros Hunset.
  - cbn. eauto.
  - cbn [Authentication.Value].
    destruct (decide (k = Str Authentication.statusKey)) as [-> | Hk].
    + destruct v as [st | a]; [| eauto].
      cbn in Hunset. rewrite bool_decide_eq_true_2 in Hunset by reflexivity.
      discriminate.
    + apply IH. destruct v as [st | a]; cbn in Hunset; [| exact Hunset].
      apply orb_false_iff in Hunset. tauto.
Qed.

Lemma Get_panics_when_not_set_witness :
  exists msg,
    Authentication.Get
      (Authentication.WithValue Authentication.Background (Str "livemode")
         (Authentication.VOther (Bool true)))
    = Panics msg.
Proof. apply Get_panics_when_not_set. reflexivity. Defined.

(** ** The retrieval endpoint *)

Section Retrieval.
Import Endpoint.
Context {RegDB MintDB : Type} (S : Stores RegDB MintDB).

Ltac run_saga :=
  unfold Execute, body, verify_block, mint_block, initial;
  unfold mbind, mret, M_bind, M_ret, Begin_register, Begin_mint,
    Commit_register, Commit_mint, reg_load, reg_save, mint_load,
    mint_update_password, mint_save, mint_create, emit, return_, fatal, panic;
  cbn.

(** C5. When no user has the username, or the stored secret is not the
    one supplied, [Execute] returns the traced [user_not_found] user error
    with status 400; the two stores are as before; the only calls were the
    opening of the register transaction, the load and the rollback: no
    save, no password update, no creation, no commit, and no transaction
    is left open. *)
Theorem unknown_pair_is_user_not_found
    (e : RetrieveUser) (reg : RegDB) (mint : MintDB) :
  LoadUserByUsername S reg (Username e) = (None, None)
  \/ (exists user,
        LoadUserByUsername S reg (Username e) = (Some user, None)
        /\ Register.Secret user <> Secret e) ->
  exists st,
    Execute S e reg mint
    = (Return None None
         (Some (Trace (NewUserError None 400 "user_not_found"
                         "The username and secret pair you specified is not associated with any existing user."))),
       st)
    /\ register_db st = reg
    /\ mint_db st = mint
    /\ trace st
       = [ db_Begin "register";
           Logf "User retrieval: username=%s" [Str (Username e)];
           model_LoadUserByUsername (Username e);
           db_Rollback "register" ]
    /\ forallb (fun ev => negb (is_write ev || is_commit ev)) (trace st) = true
    /\ regCtx_open st = false
    /\ mintCtx_open st = false.
Proof.
  intros [Hload | (user & Hload & Hsecret)]; run_saga; rewrite Hload; cbn.
  - eexists. split; [reflexivity |]. repeat split.
  - apply String.eqb_neq in Hsecret. rewrite Hsecret. cbn.
    eexists. split; [reflexivity |]. repeat split.
Qed.

(** C3. For a user that is Verified and has its MintToken, a retrieval with
    the right secret opens no mint transaction and calls neither the mint
    loader nor [CreateUser] nor any save: it commits the untouched register
    transaction and returns 201 with the user as loaded, MintToken
    included; both stores are as before. *)
Theorem completed_saga_is_not_repeated
    (e : RetrieveUser) (reg : RegDB) (mint : MintDB)
    (user : Register.User) (token : string) :
  LoadUserByUsername S reg (Username e) = (Some user, None) ->
  Register.Secret user = Secret e ->
  Register.Status user = Register.UsrStVerified ->
  Register.MintToken user = Some token ->
  exists st resp,
    Execute S e reg mint = (Return (Some 201) (Some resp) None, st)
    /\ resp_user resp = user
    /\ Register.MintToken (resp_user resp) = Some token
    /\ trace st
       = [ db_Begin "register";
           Logf "User retrieval: username=%s" [Str (Username e)];
           model_LoadUserByUsername (Username e);
           db_Commit "register" ]
    /\ forallb (fun ev => negb (is_write ev)) (trace st) = true
    /\ register_db st = reg
    /\ mint_db st = mint.
Proof.
  intros Hload Hsecret Hstatus Htoken.
  run_saga. rewrite Hload. cbn.
  rewrite Hsecret, String.eqb_refl. cbn.
  rewrite Hstatus. case_decide; [congruence |]. cbn. rewrite Htoken. cbn.
  eexists. eexists. split; [reflexivity |]. cbn. repeat split.
  exact Htoken.
Qed.

(** C4. For a user that is Unverified and has no MintToken, with no mint
    user of its username, a retrieval with the right secret, the stores
    answering: the user is saved as Verified, [CreateUser] is called with
    its username and password, the user is saved again with the token of
    the mint user created, both transactions are committed, mint first, and
    the return is 201 with the credentials username@mint and the stored
    password. *)
Theorem first_retrieval_provisions_mint_user
    (e : RetrieveUser) (reg reg1 reg2 : RegDB) (mint mint1 : MintDB)
    (user : Register.User) (created : MintModel.User) :
  let verified := Register.set_Status user Register.UsrStVerified in
  let linked :=
    Register.set_MintToken verified (Some (MintModel.Token created)) in
  LoadUserByUsername S reg (Username e) = (Some user, None) ->
  Register.Secret user = Secret e ->
  Register.Status user = Register.UsrStUnverified ->
  Register.MintToken user = None ->
  Save S reg verified = (None, reg1) ->
  mint_LoadUserByUsername S mint (Register.Username user) = (None, None) ->
  CreateUser S mint (Register.Username user) (Register.Password user)
    = (Some created, None, mint1) ->
  Save S reg1 linked = (None, reg2) ->
  exists st,
    Execute S e reg mint
    = (Return (Some 201)
         (Some (mkResp linked
                  (Register.mkCredentialsResource
                     (Register.Username user +:+ "@" +:+ GetMint S)
                     (Register.Password user))))
         None,
       st)
    /\ Register.Status linked = Register.UsrStVerified
    /\ Register.MintToken linked = Some (MintModel.Token created)
    /\ register_db st = reg2
    /\ mint_db st = mint1
    /\ filter (fun ev => is_write ev || is_commit ev) (trace st)
       = [ register_Save verified;
           mintmodel_CreateUser (Register.Username user)
             (Register.Password user);
           register_Save linked;
           db_Commit "mint";
           db_Commit "register" ].
Proof.
  intros verified linked Hload Hsecret Hstatus Htoken Hsave1 Hmload Hcreate
    Hsave2.
  run_saga. rewrite Hload. cbn.
  rewrite Hsecret, String.eqb_refl. cbn.
  rewrite Hstatus. case_decide; [| congruence]. cbn.
  fold verified. rewrite Hsave1. cbn.
  rewrite Htoken. cbn. rewrite Hmload. cbn. rewrite Hcreate. cbn.
  fold verified. fold linked. rewrite Hsave2. cbn.
  eexists. split; [reflexivity |]. cbn. repeat split.
Qed.

(** C6. When the creation branch is reached (MintToken nil, no mint user of
    the username) and [CreateUser] returns an error, [Execute] does not
    return: the process is stopped by [log.Fatal] with the details of the
    error, so no status, response or error reaches the caller; nothing was
    committed to either store. *)
Theorem creation_failure_is_fatal
    (e : RetrieveUser) (reg : RegDB) (mint mint1 : MintDB)
    (user : Register.User) (created : option MintModel.User) (err : error) :
  LoadUserByUsername S reg (Username e) = (Some user, None) ->
  Register.Secret user = Secret e ->
  Register.Status user = Register.UsrStVerified
  \/ (exists reg1,
        Save S reg (Register.set_Status user Register.UsrStVerified)
        = (None, reg1)) ->
  Register.MintToken user = None ->
  mint_LoadUserByUsername S mint (Register.Username user) = (None, None) ->
  CreateUser S mint (Register.Username user) (Register.Password user)
    = (created, Some err, mint1) ->
  exists st,
    Execute S e reg mint = (Fatal (Details S err), st)
    /\ (forall status resp err',
           fst (Execute S e reg mint) <> Return status resp err')
    /\ last (trace st) = Some (log_Fatal (Details S err))
    /\ register_db st = reg
    /\ mint_db st = mint.
Proof.
  intros Hload Hsecret Hverified Htoken Hmload Hcreate.
  run_saga. rewrite Hload. cbn.
  rewrite Hsecret, String.eqb_refl. cbn.
  destruct Hverified as [Hstatus | (reg1 & Hsave)].
  - rewrite Hstatus. case_decide; [congruence |]. cbn.
    rewrite Htoken. cbn. rewrite Hmload. cbn.
    rewrite Hcreate. cbn.
    eexists. split; [reflexivity |]. cbn. repeat split. discriminate.
  - case_decide; cbn; [rewrite Hsave; cbn |];
      rewrite Htoken; cbn; rewrite Hmload; cbn; rewrite Hcreate; cbn;
      (eexists; split; [reflexivity |]); cbn; repeat split; discriminate.
Qed.

End Retrieval.

Section RetrievalRuns.
Import Endpoint Reference.

Lemma unknown_pair_is_user_not_found_witness :
  exists st,
    Execute stores (mkRetrieveUser "alice" "S2")
      (register_with (alice Register.UsrStUnverified None)) ∅
    = (Return None None
         (Some (Trace (NewUserError None 400 "user_not_found"
                         "The username and secret pair you specified is not associated with any existing user."))),
       st)
    /\ register_db st = register_with (alice Register.UsrStUnverified None)
    /\ mint_db st = ∅
    /\ trace st
       = [ db_Begin "register";
           Logf "User retrieval: username=%s" [Str "alice"];
           model_LoadUserByUsername "alice";
           db_Rollback "register" ]
    /\ forallb (fun ev => negb (is_write ev || is_commit ev)) (trace st) = true
    /\ regCtx_open st = false
    /\ mintCtx_open st = false.
Proof.
  apply (unknown_pair_is_user_not_found stores (mkRetrieveUser "alice" "S2")).
  right. exists (alice Register.UsrStUnverified None).
  split; [reflexivity | discriminate].
Defined.

Lemma completed_saga_is_not_repeated_witness :
  exists st resp,
    Execute stores (mkRetrieveUser "alice" "S1")
      (register_with (alice Register.UsrStVerified (Some "mint_alice")))
      {[ "alice" := mint_alice ]}
    = (Return (Some 201) (Some resp) None, st)
    /\ resp_user resp = alice Register.UsrStVerified (Some "mint_alice")
    /\ Register.MintToken (resp_user resp) = Some "mint_alice"
    /\ trace st
       = [ db_Begin "register";
           Logf "User retrieval: username=%s" [Str "alice"];
           model_LoadUserByUsername "alice";
           db_Commit "register" ]
    /\ forallb (fun ev => negb (is_write ev)) (trace st) = true
    /\ register_db st
       = register_with (alice Register.UsrStVerified (Some "mint_alice"))
    /\ mint_db st = {[ "alice" := mint_alice ]}.
Proof.
  apply (completed_saga_is_not_repeated stores (mkRetrieveUser "alice" "S1")
           _ _ (alice Register.UsrStVerified (Some "mint_alice"))
           "mint_alice"); reflexivity.
Defined.

Lemma first_retrieval_provisions_mint_user_witness :
  exists st,
    Execute stores (mkRetrieveUser "alice" "S1")
      (register_with (alice Register.UsrStUnverified None)) ∅
    = (Return (Some 201)
         (Some (mkResp (alice Register.UsrStVerified (Some "mint_alice"))
                  (Register.mkCredentialsResource "alice@mint.example"
                     "pw-alice")))
         None,
       st)
    /\ register_db st
       = register_with (alice Register.UsrStVerified (Some "mint_alice"))
    /\ mint_db st = {[ "alice" := mint_alice ]}.
Proof.
  assert (Hrun := first_retrieval_provisions_mint_user stores
              (mkRetrieveUser "alice" "S1")
              (register_with (alice Register.UsrStUnverified None))
              (register_with (alice Register.UsrStVerified None))
              (register_with (alice Register.UsrStVerified (Some "mint_alice")))
              ∅ {[ "alice" := mint_alice ]}
              (alice Register.UsrStUnverified None) mint_alice).
  cbv zeta in Hrun.
  destruct Hrun as (st & Hrun & _ & _ & Hreg & Hmint & _);
    try (vm_compute; reflexivity).
  exists st. split; [exact Hrun |]. split; [exact Hreg | exact Hmint].
Defined.

Lemma creation_failure_is_fatal_witness :
  exists st,
    Execute failing_stores (mkRetrieveUser "alice" "S1")
      (register_with (alice Register.UsrStUnverified None)) ∅
    = (Fatal "error details", st)
    /\ (forall status resp err',
           fst (Execute failing_stores (mkRetrieveUser "alice" "S1")
                  (register_with (alice Register.UsrStUnverified None)) ∅)
           <> Return status resp err')
    /\ last (trace st) = Some (log_Fatal "error details")
    /\ register_db st = register_with (alice Register.UsrStUnverified None)
    /\ mint_db st = ∅.
Proof.
  apply (creation_failure_is_fatal failing_stores
           (mkRetrieveUser "alice" "S1") _ ∅ ∅
           (alice Register.UsrStUnverified None) None
           (Newf "mint store unavailable" []));
    try reflexivity.
  right. eexists. reflexivity.
Defined.

End RetrievalRuns.

(** ** The matcher and the language of a pattern *)

Section RegexpLanguage.
Import Regexp.

Lemma append_nil_l (s : string) : "" +:+ s = s.
Proof. reflexivity. Qed.

Lemma append_cons (c : ascii) (s1 s2 : string) :
  String c s1 +:+ s2 = String c (s1 +:+ s2).
Proof. reflexivity. Qed.

Lemma matches_nil_nullable (r : regex) (s : string) :
  matches r s -> s = "" -> nullable r = true.
Proof.
  induction 1 as [| c ranges Hc | r1 r2 s1 s2 H1 IH1 H2 IH2
                  | r1 r2 s H IH | r1 r2 s H IH | r
                  | r s1 s2 H1 IH1 H2 IH2]; intros Hs; cbn;
    try reflexivity; try discriminate.
  - destruct s1; [| discriminate]. cbn in Hs.
    rewrite IH1 by reflexivity. rewrite IH2 by assumption. reflexivity.
  - rewrite IH by assumption. reflexivity.
  - rewrite IH by assumption. apply orb_true_r.
Qed.

Lemma nullable_matches_nil (r : regex) :
  nullable r = true -> matches r "".
Proof.
  induction r as [| | ranges | r1 IH1 r2 IH2 | r1 IH1 r2 IH2 | r IH];
    cbn; intros Hn; try discriminate.
  - constructor.
  - apply andb_true_iff in Hn as [Hn1 Hn2].
    change "" with ("" +:+ ""). constructor; auto.
  - apply orb_true_iff in Hn as [Hn | Hn];
      [apply matches_Alt_l | apply matches_Alt_r]; auto.
  - constructor.
Qed.

(** A star that matches a non-empty string starts with a non-empty match
    of its body. *)
Lemma matches_Star_cons_inv (r0 : regex) (s0 : string) :
  matches r0 s0 ->
  forall (r : regex) (c : ascii) (s : string),
    r0 = Star r -> s0 = String c s ->
    exists s1 s2,
      s = s1 +:+ s2 /\ matches r (String c s1) /\ matches (Star r) s2.
Proof.
  induction 1 as [| c0 ranges Hc | r1 r2 s1 s2 H1 IH1 H2 IH2
                  | r1 r2 s' H IH | r1 r2 s' H IH | r'
                  | r' s1 s2 H1 IH1 H2 IH2]; intros r c s Hr Hs;
    try discriminate.
  injection Hr as ->.
  destruct s1 as [| c1 s1].
  - cbn in Hs. eapply IH2; [reflexivity | exact Hs].
  - cbn in Hs. injection Hs as -> <-.
    exists s1, s2. repeat split; assumption.
Qed.

Lemma matches_deriv (r : regex) :
  forall (c : ascii) (s : string),
    matches (deriv c r) s <-> matches r (String c s).
Proof.
  induction r as [| | ranges | r1 IH1 r2 IH2 | r1 IH1 r2 IH2 | r IH];
    intros c s; cbn [deriv].
  - split; intros H; inversion H.
  - split; intros H; inversion H.
  - destruct (in_class c ranges) eqn:Hc; split; intros H.
    + inversion H; subst. now constructor.
    + inversion H; subst. constructor.
    + inversion H.
    + inversion H; subst. congruence.
  - assert (Hleft : forall s1 s2,
              matches (deriv c r1) s1 -> matches r2 s2 ->
              matches (Cat r1 r2) (String c (s1 +:+ s2))).
    { intros s1 s2 H1 H2. change (String c (s1 +:+ s2))
        with (String c s1 +:+ s2). constructor; [now apply IH1 | exact H2]. }
    assert (Hright :
              matches (Cat r1 r2) (String c s) ->
              (exists s1 s2, s = s1 +:+ s2 /\ matches (deriv c r1) s1
                             /\ matches r2 s2)
              \/ (nullable r1 = true /\ matches (deriv c r2) s)).
    { intros H. inversion H as [| | r1' r2' s1 s2 H1 H2 Heq | | | |]; subst.
      destruct s1 as [| c1 s1].
      - right. rewrite append_nil_l in *. subst s2. split.
        + eapply matches_nil_nullable; [exact H1 | reflexivity].
        + now apply IH2.
      - left. rewrite append_cons in *.
        match goal with Hs : String _ _ = String _ _ |- _ =>
          injection Hs as -> <- end.
        exists s1, s2. repeat split; [now apply IH1 | exact H2]. }
    destruct (nullable r1) eqn:Hn; split; intros H.
    + inversion H as [| | | r1' r2' s' H' | r1' r2' s' H' | |]; subst.
      * inversion H' as [| | r1'' r2'' s1 s2 H1 H2 | | | |]; subst.
        now apply Hleft.
      * change (String c s) with ("" +:+ String c s).
        constructor; [now apply nullable_matches_nil | now apply IH2].
    + destruct (Hright H) as [(s1 & s2 & -> & H1 & H2) | [_ H2]].
      * apply matches_Alt_l. now constructor.
      * now apply matches_Alt_r.
    + inversion H as [| | r1' r2' s1 s2 H1 H2 | | | |]; subst.
      now apply Hleft.
    + destruct (Hright H) as [(s1 & s2 & -> & H1 & H2) | [Hn' _]].
      * now constructor.
      * congruence.
  - split; intros H.
    + inversion H; subst;
        [apply matches_Alt_l; now apply IH1
        | apply matches_Alt_r; now apply IH2].
    + inversion H; subst;
        [apply matches_Alt_l; now apply IH1
        | apply matches_Alt_r; now apply IH2].
  - split; intros H.
    + inversion H as [| | r1' r2' s1 s2 H1 H2 | | | |]; subst.
      change (String c (s1 +:+ s2)) with (String c s1 +:+ s2).
      constructor; [now apply IH | exact H2].
    + destruct (matches_Star_cons_inv _ _ H r c s eq_refl eq_refl)
        as (s1 & s2 & -> & H1 & H2).
      constructor; [now apply IH | exact H2].
Qed.

(** The derivative matcher decides the language. *)
Lemma full_match_matches (s : string) :
  forall r : regex, full_match r s = true <-> matches r s.
Proof.
  induction s as [| c s IH]; intros r; cbn [full_match].
  - split; [apply nullable_matches_nil |].
    intros H. eapply matches_nil_nullable; [exact H | reflexivity].
  - rewrite IH. apply matches_deriv.
Qed.

End RegexpLanguage.

Section SkipRoutes.
Import Regexp Authentication.

Lemma append_nil_r (s : string) : s +:+ "" = s.
Proof. induction s as [| c s IH]; [reflexivity |]. rewrite append_cons. now f_equal. Qed.

Lemma matches_Eps_inv (s : string) : matches Eps s <-> s = "".
Proof. split; [intros H; now inversion H | intros ->; constructor]. Qed.

Lemma matches_Cat_inv (r1 r2 : regex) (s : string) :
  matches (Cat r1 r2) s
  <-> exists s1 s2, s = s1 +:+ s2 /\ matches r1 s1 /\ matches r2 s2.
Proof.
  split.
  - intros H. inversion H; subst. eauto.
  - intros (s1 & s2 & -> & H1 & H2). now constructor.
Qed.

Lemma in_class_single (c c' : ascii) :
  in_class c' [(c, c)] = true <-> c' = c.
Proof.
  unfold in_class, in_range. cbn. rewrite orb_false_r, andb_true_iff.
  rewrite !Nat.leb_le. split.
  - intros [H1 H2]. rewrite <- (ascii_nat_embedding c'), <- (ascii_nat_embedding c).
    f_equal. lia.
  - intros ->. lia.
Qed.

Lemma matches_Chr (c : ascii) (s : string) :
  matches (Chr c) s <-> s = String c "".
Proof.
  unfold Chr. split.
  - intros H. inversion H; subst.
    match goal with Hc : in_class _ _ = true |- _ =>
      apply in_class_single in Hc; now subst end.
  - intros ->. constructor. now apply in_class_single.
Qed.

Lemma matches_Lit (t : string) :
  forall s : string, matches (Lit t) s <-> s = t.
Proof.
  induction t as [| c t IH]; intros s; cbn [Lit].
  - apply matches_Eps_inv.
  - rewrite matches_Cat_inv. split.
    + intros (s1 & s2 & -> & H1 & H2).
      apply matches_Chr in H1 as ->. apply IH in H2 as ->. reflexivity.
    + intros ->. exists (String c ""), t. repeat split.
      * now apply matches_Chr.
      * now apply IH.
Qed.

Lemma matches_Star_Class_all (r0 : regex) (s : string) :
  matches r0 s ->
  forall ranges, r0 = Star (Class ranges) -> all_in_class ranges s = true.
Proof.
  induction 1 as [| c0 rg Hc | r1 r2 s1 s2 H1 IH1 H2 IH2
                  | r1 r2 s' H IH | r1 r2 s' H IH | r'
                  | r' s1 s2 H1 IH1 H2 IH2]; intros ranges Hr;
    try discriminate; [reflexivity |].
  injection Hr as ->. inversion H1; subst.
  rewrite append_cons, append_nil_l. cbn [all_in_class].
  apply andb_true_iff. split; [assumption | now apply IH2].
Qed.

Lemma matches_Star_Class (ranges : list (ascii * ascii)) (s : string) :
  matches (Star (Class ranges)) s <-> all_in_class ranges s = true.
Proof.
  split.
  - intros H. now apply (matches_Star_Class_all _ _ H).
  - induction s as [| c s IH]; cbn [all_in_class]; intros Hall.
    + constructor.
    + apply andb_true_iff in Hall as [Hc Hall].
      change (String c s) with (String c "" +:+ s).
      constructor; [now constructor | now apply IH].
Qed.

Lemma matches_Plus_Class (ranges : list (ascii * ascii)) (s : string) :
  matches (Plus (Class ranges)) s
  <-> s <> "" /\ all_in_class ranges s = true.
Proof.
  unfold Plus. rewrite matches_Cat_inv. split.
  - intros (s1 & s2 & -> & H1 & H2). inversion H1; subst.
    rewrite append_cons, append_nil_l. split; [discriminate |].
    cbn [all_in_class]. apply andb_true_iff. split; [assumption |].
    now apply matches_Star_Class.
  - intros [Hne Hall]. destruct s as [| c s]; [congruence |].
    cbn [all_in_class] in Hall. apply andb_true_iff in Hall as [Hc Hall].
    exists (String c ""), s. repeat split.
    + now constructor.
    + now apply matches_Star_Class.
Qed.

(** A pattern with both anchors matches the whole text or nothing. *)
Lemma MatchString_anchored (body : regex) (s : string) :
  MatchString (mkRegexp true body true) s = true <-> matches body s.
Proof.
  unfold MatchString. cbn [anchor_begin anchor_end Regexp.body].
  rewrite full_match_matches, matches_Cat_inv. split.
  - intros (s1 & s2 & -> & H1 & H2).
    apply matches_Eps_inv in H1 as ->. apply matches_Cat_inv in H2
      as (s3 & s4 & -> & H3 & H4).
    apply matches_Eps_inv in H4 as ->.
    now rewrite append_nil_l, append_nil_r.
  - intros H. exists "", s. repeat split; [constructor |].
    apply matches_Cat_inv. exists s, "". rewrite append_nil_r.
    repeat split; [exact H | constructor].
Qed.

(** X1. The skip list lets through exactly the GET requests whose escaped
    path is [/challenges], or [/users/] followed by a non-empty name of
    bytes of [a-zA-Z0-9_]: no other method, no longer or shorter path. *)
Theorem SkipList_routes (r : Request) :
  skip_loop SkipList r = true
  <-> Request_Method r = "GET"
      /\ (URL_EscapedPath r = "/challenges"
          \/ exists name,
               URL_EscapedPath r = "/users/" +:+ name
               /\ name <> "" /\ is_word name = true).
Proof.
  rewrite skip_loop_eligible. unfold skip_eligible, SkipList.
  cbn [existsb Method Pattern]. rewrite orb_false_r, orb_true_iff.
  rewrite !andb_true_iff, !MatchString_anchored, !String.eqb_eq.
  rewrite matches_Lit, matches_Cat_inv.
  split.
  - intros [[Hm Hp] | [Hm (s1 & s2 & Hp & H1 & H2)]].
    + split; [now symmetry | now left].
    + split; [now symmetry |]. right.
      apply matches_Lit in H1 as ->. apply matches_Plus_Class in H2 as [Hne Hw].
      exists s2. repeat split; assumption.
  - intros [Hm [Hp | (name & Hp & Hne & Hw)]].
    + left. split; [now symmetry | exact Hp].
    + right. split; [now symmetry |].
      exists "/users/", name. repeat split; [exact Hp | now apply matches_Lit |].
      apply matches_Plus_Class. split; assumption.
Qed.

End SkipRoutes.

(** ** What every run of the middleware keeps *)

Section GateInvariants.
Import Regexp Authentication.
Context {Ledger : Type} (deps : Collaborators Ledger).

(** X2. Every run returns and does one thing after its log line: it calls
    the next handler with the context it attached, or it answers one error
    with that context, never both; it answers an error exactly when the
    attached status is Failed. *)
Theorem ServeHTTPC_handler_or_error
    (ctx : Context) (r : Request) (l : Ledger) :
  exists o st format args,
    ServeHTTPC deps ctx r l = Returns o
    /\ Get (withStatus o) = Returns st
    /\ ((Status_Status st = AutStFailed
         /\ exists err,
              events o = [Logf format args; respond_Error (withStatus o) err]
              /\ error_responses o = [err] /\ handler_invoked o = false)
        \/ (Status_Status st <> AutStFailed
            /\ events o
               = [Logf format args; Handler_ServeHTTPC (withStatus o) r]
            /\ error_responses o = [] /\ handler_invoked o = true)).
Proof.
  rewrite ServeHTTPC_read. cbv zeta.
  assert (Hfailed : forall l0 e,
    exists o st format args,
      failedAuth deps (skip_eligible SkipList r) ctx r (Request_address r)
        (Request_challenge r) (Request_signature r) l0 e = Returns o
      /\ Get (withStatus o) = Returns st
      /\ ((Status_Status st = AutStFailed
           /\ exists err,
                events o = [Logf format args; respond_Error (withStatus o) err]
                /\ error_responses o = [err] /\ handler_invoked o = false)
          \/ (Status_Status st <> AutStFailed
              /\ events o
                 = [Logf format args; Handler_ServeHTTPC (withStatus o) r]
              /\ error_responses o = [] /\ handler_invoked o = true))).
  { intros l0 e. destruct (skip_eligible SkipList r).
    - rewrite failedAuth_skip. do 4 eexists. split; [reflexivity |].
      cbn [withStatus]. rewrite Get_With. split; [reflexivity |].
      right. cbn. repeat split. discriminate.
    - rewrite failedAuth_fail. do 4 eexists. split; [reflexivity |].
      cbn [withStatus]. rewrite Get_With. split; [reflexivity |].
      left. cbn. split; [reflexivity |]. eexists. repeat split. }
  destruct (CheckChallenge deps ctx _); [apply Hfailed |].
  destruct (VerifyChallenge deps ctx _ _ _); [apply Hfailed |].
  destruct (LoadAuthenticationByChallenge deps l _) as [[found |] [e |]];
    try apply Hfailed.
  destruct (CreateAuthentication deps l _ _ _ _ _) as [[auth [e |]] l'];
    [apply Hfailed |].
  do 4 eexists. split; [reflexivity |].
  cbn [withStatus]. rewrite Get_With. split; [reflexivity |].
  right. cbn. repeat split. discriminate.
Qed.

(** X3. On a route of the skip list the next handler is always called and
    no error is answered, whatever the credentials and whatever the
    ledger does; the status is Skipped, or Succeeded with the address. *)
Theorem skip_route_always_reaches_handler
    (ctx : Context) (r : Request) (l : Ledger) :
  skip_loop SkipList r = true ->
  exists o,
    ServeHTTPC deps ctx r l = Returns o
    /\ In (Handler_ServeHTTPC (withStatus o) r) (events o)
    /\ error_responses o = []
    /\ (Get (withStatus o) = Returns (mkStatus AutStSkipped "")
        \/ Get (withStatus o)
           = Returns (mkStatus AutStSucceeded (Request_address r))).
Proof.
  rewrite skip_loop_eligible. intros Hskip.
  rewrite ServeHTTPC_read. cbv zeta. rewrite Hskip.
  assert (Hfailed : forall l0 e,
    exists o,
      failedAuth deps true ctx r (Request_address r) (Request_challenge r)
        (Request_signature r) l0 e = Returns o
      /\ In (Handler_ServeHTTPC (withStatus o) r) (events o)
      /\ error_responses o = []
      /\ (Get (withStatus o) = Returns (mkStatus AutStSkipped "")
          \/ Get (withStatus o)
             = Returns (mkStatus AutStSucceeded (Request_address r)))).
  { intros l0 e. rewrite failedAuth_skip. eexists. split; [reflexivity |].
    cbn [withStatus events]. rewrite Get_With.
    repeat split; [right; left; reflexivity | now left]. }
  destruct (CheckChallenge deps ctx _); [apply Hfailed |].
  destruct (VerifyChallenge deps ctx _ _ _); [apply Hfailed |].
  destruct (LoadAuthenticationByChallenge deps l _) as [[found |] [e |]];
    try apply Hfailed.
  destruct (CreateAuthentication deps l _ _ _ _ _) as [[auth [e |]] l'];
    [apply Hfailed |].
  eexists. split; [reflexivity |]. cbn [withStatus events]. rewrite Get_With.
  repeat split; [right; left; reflexivity | now right].
Qed.

(** X4. On a route outside the skip list the next handler is called only
    when the challenge check, the signature check, the lookup and the
    insertion all passed; the status is then Succeeded with the address and
    the ledger is the one the insertion left. *)
Theorem protected_route_handler_only_after_all_checks
    (ctx : Context) (r : Request) (l : Ledger) (o : Outcome Ledger) :
  skip_loop SkipList r = false ->
  ServeHTTPC deps ctx r l = Returns o ->
  handler_invoked o = true ->
  CheckChallenge deps ctx (Request_challenge r) = None
  /\ VerifyChallenge deps ctx (Request_challenge r) (Request_address r)
       (Request_signature r) = None
  /\ LoadAuthenticationByChallenge deps l (Request_challenge r) = (None, None)
  /\ (exists auth,
        CreateAuthentication deps l (Request_Method r) (URL_String r)
          (Request_challenge r) (Request_address r) (Request_signature r)
        = (auth, None, ledger o))
  /\ Get (withStatus o) = Returns (mkStatus AutStSucceeded (Request_address r)).
Proof.
  rewrite skip_loop_eligible. intros Hskip.
  rewrite ServeHTTPC_read. cbv zeta. rewrite Hskip.
  assert (Hfailed : forall l0 e P,
    failedAuth deps false ctx r (Request_address r) (Request_challenge r)
      (Request_signature r) l0 e = Returns o ->
    handler_invoked o = true -> P).
  { intros l0 e P. rewrite failedAuth_fail. intros [= <-]. discriminate. }
  destruct (CheckChallenge deps ctx _); [apply Hfailed |].
  destruct (VerifyChallenge deps ctx _ _ _); [apply Hfailed |].
  destruct (LoadAuthenticationByChallenge deps l _) as [[found |] [e |]];
    try apply Hfailed.
  destruct (CreateAuthentication deps l _ _ _ _ _) as [[auth [e |]] l'];
    [apply Hfailed |].
  intros [= <-] _. cbn [withStatus ledger]. rewrite Get_With.
  repeat split. eauto.
Qed.

(** X5. An error of the ledger, at the lookup or at the insertion, is
    handled like a failed check: on a route of the skip list the run ends
    Skipped and the next handler is called, elsewhere it ends Failed and
    the traced error is the response. The ledger is the one the failing
    call left. *)
Theorem ledger_error_skipped_or_failed
    (ctx : Context) (r : Request) (l lend : Ledger) (err : error) :
  CheckChallenge deps ctx (Request_challenge r) = None ->
  VerifyChallenge deps ctx (Request_challenge r) (Request_address r)
    (Request_signature r) = None ->
  ((exists auth,
       LoadAuthenticationByChallenge deps l (Request_challenge r)
       = (auth, Some err)) /\ lend = l)
  \/ (LoadAuthenticationByChallenge deps l (Request_challenge r) = (None, None)
      /\ exists auth,
           CreateAuthentication deps l (Request_Method r) (URL_String r)
             (Request_challenge r) (Request_address r) (Request_signature r)
           = (auth, Some err, lend)) ->
  exists o,
    ServeHTTPC deps ctx r l = Returns o
    /\ ledger o = lend
    /\ if skip_loop SkipList r then
         Get (withStatus o) = Returns (mkStatus AutStSkipped "")
         /\ In (Handler_ServeHTTPC (withStatus o) r) (events o)
         /\ error_responses o = []
       else
         Get (withStatus o) = Returns (mkStatus AutStFailed "")
         /\ handler_invoked o = false
         /\ error_responses o = [Trace (Trace err)].
Proof.
  intros Hcheck Hverify Hledger.
  assert (Hrun :
    ServeHTTPC deps ctx r l
    = failedAuth deps (skip_eligible SkipList r) ctx r (Request_address r)
        (Request_challenge r) (Request_signature r) lend (Trace err)).
  { rewrite ServeHTTPC_read. cbv zeta. rewrite Hcheck, Hverify.
    destruct Hledger as [[[auth Hload] ->] | [Hload [auth Hcreate]]].
    - rewrite Hload. now destruct auth.
    - rewrite Hload, Hcreate. reflexivity. }
  rewrite Hrun, skip_loop_eligible.
  destruct (skip_eligible SkipList r).
  - rewrite failedAuth_skip. eexists. split; [reflexivity |].
    cbn [withStatus events ledger]. rewrite Get_With.
    repeat split. right; left; reflexivity.
  - rewrite failedAuth_fail. eexists. split; [reflexivity |].
    cbn [withStatus events ledger]. rewrite Get_With. repeat split.
Qed.

(** X6. A challenge is redeemed once. When a first run succeeds and the
    ledger it leaves answers the lookup of that challenge with a record,
    a second run of the same request on that ledger does not succeed: on
    a route outside the skip list it ends Failed with
    [challenge_already_used], on a route of the list it ends Skipped; the
    ledger is not written again. *)
Theorem second_redemption_is_refused
    (ctx : Context) (r : Request) (l l' : Ledger)
    (auth : option AuthenticationRecord) (found : AuthenticationRecord) :
  CheckChallenge deps ctx (Request_challenge r) = None ->
  VerifyChallenge deps ctx (Request_challenge r) (Request_address r)
    (Request_signature r) = None ->
  LoadAuthenticationByChallenge deps l (Request_challenge r) = (None, None) ->
  CreateAuthentication deps l (Request_Method r) (URL_String r)
    (Request_challenge r) (Request_address r) (Request_signature r)
  = (auth, None, l') ->
  LoadAuthenticationByChallenge deps l' (Request_challenge r)
  = (Some found, None) ->
  exists o1 o2,
    ServeHTTPC deps ctx r l = Returns o1
    /\ Get (withStatus o1)
       = Returns (mkStatus AutStSucceeded (Request_address r))
    /\ ServeHTTPC deps ctx r (ledger o1) = Returns o2
    /\ ledger o2 = ledger o1
    /\ Get (withStatus o2)
       = Returns (mkStatus
                    (if skip_loop SkipList r then AutStSkipped
                     else AutStFailed) "")
    /\ error_responses o2
       = (if skip_loop SkipList r then []
          else [Trace challenge_already_used]).
Proof.
  intros Hcheck Hverify Hload Hcreate Hfound.
  assert (Hfirst :
    ServeHTTPC deps ctx r l
    = Returns (mkOutcome
        (With ctx (mkStatus AutStSucceeded (Request_address r)))
        [ Logf "Authentication: status=%q livemode=%t address=%q challenge=%q signature=%q"
            [Str AutStSucceeded; Bool (livemode_Get deps ctx);
             Str (Request_address r); Str (Request_challenge r);
             Str (Request_signature r)];
          Handler_ServeHTTPC
            (With ctx (mkStatus AutStSucceeded (Request_address r))) r ]
        l')).
  { rewrite ServeHTTPC_read. cbv zeta.
    now rewrite Hcheck, Hverify, Hload, Hcreate. }
  assert (Hsecond :
    ServeHTTPC deps ctx r l'
    = failedAuth deps (skip_eligible SkipList r) ctx r (Request_address r)
        (Request_challenge r) (Request_signature r) l'
        challenge_already_used).
  { rewrite ServeHTTPC_read. cbv zeta.
    now rewrite Hcheck, Hverify, Hfound. }
  rewrite Hfirst, skip_loop_eligible. eexists.
  destruct (skip_eligible SkipList r);
    [rewrite failedAuth_skip in Hsecond | rewrite failedAuth_fail in Hsecond];
    eexists; (split; [reflexivity |]); cbn [withStatus ledger];
    rewrite Get_With; (split; [reflexivity |]);
    (split; [exact Hsecond |]); cbn [withStatus ledger];
    rewrite Get_With; repeat split.
Qed.

End GateInvariants.

(** X7. [Get] reads what the innermost [With] stored; a value stored under
    another key does not change what [Get] returns; and a value of another
    type stored under the status key, which is a plain string, hides the
    status and makes [Get] panic. *)
Theorem Get_reads_innermost_With
    (ctx : Authentication.Context) (st st' : Authentication.Status) :
  Authentication.Get (Authentication.With (Authentication.With ctx st') st)
  = Returns st
  /\ (forall (k : any) (v : Authentication.value),
         k <> Str Authentication.statusKey ->
         Authentication.Get (Authentication.WithValue ctx k v)
         = Authentication.Get ctx)
  /\ (forall a : any,
         exists msg,
           Authentication.Get
             (Authentication.WithValue (Authentication.With ctx st)
                (Str Authentication.statusKey) (Authentication.VOther a))
           = Panics msg).
Proof.
  split; [apply Get_With |]. split.
  - intros k v Hk. unfold Authentication.Get. cbn [Authentication.Value].
    destruct (decide (k = Str Authentication.statusKey)); [contradiction |].
    reflexivity.
  - intros a. unfold Authentication.Get. cbn [Authentication.Value].
    destruct (decide (Str Authentication.statusKey
                      = Str Authentication.statusKey)); [| congruence].
    eauto.
Qed.

Section GateInvariantRuns.
Import Regexp Authentication Reference.

Lemma skip_route_always_reaches_handler_witness :
  exists o,
    ServeHTTPC deps Background anonymous_profile ∅ = Returns o
    /\ In (Handler_ServeHTTPC (withStatus o) anonymous_profile) (events o)
    /\ error_responses o = []
    /\ (Get (withStatus o) = Returns (mkStatus AutStSkipped "")
        \/ Get (withStatus o) = Returns (mkStatus AutStSucceeded "")).
Proof.
  apply (skip_route_always_reaches_handler deps Background anonymous_profile ∅).
  vm_compute. reflexivity.
Defined.

Lemma protected_route_handler_only_after_all_checks_witness :
  exists o,
    ServeHTTPC deps Background c1_on_offers ∅ = Returns o
    /\ handler_invoked o = true
    /\ CheckChallenge deps Background "c1" = None
    /\ VerifyChallenge deps Background "c1" "A" "c1/A" = None
    /\ LoadAuthenticationByChallenge deps ∅ "c1" = (None, None)
    /\ (exists auth,
          CreateAuthentication deps ∅ "POST" "/offers" "c1" "A" "c1/A"
          = (auth, None, ledger o))
    /\ Get (withStatus o) = Returns (mkStatus AutStSucceeded "A").
Proof.
  eexists. split; [vm_compute; reflexivity |]. split; [reflexivity |].
  apply (protected_route_handler_only_after_all_checks deps Background
           c1_on_offers ∅); [vm_compute | | ]; reflexivity.
Defined.

Lemma ledger_error_skipped_or_failed_witness :
  exists o,
    ServeHTTPC unavailable_deps Background c1_on_offers ∅ = Returns o
    /\ ledger o = ∅
    /\ Get (withStatus o) = Returns (mkStatus AutStFailed "")
    /\ handler_invoked o = false
    /\ error_responses o = [Trace (Trace (Newf "ledger unavailable" []))].
Proof.
  apply (ledger_error_skipped_or_failed unavailable_deps Background
           c1_on_offers ∅ ∅ (Newf "ledger unavailable" []));
    [reflexivity | reflexivity |].
  left. split; [exists None |]; reflexivity.
Defined.

Lemma second_redemption_is_refused_witness :
  exists o1 o2,
    ServeHTTPC deps Background c1_on_offers ∅ = Returns o1
    /\ Get (withStatus o1) = Returns (mkStatus AutStSucceeded "A")
    /\ ServeHTTPC deps Background c1_on_offers (ledger o1) = Returns o2
    /\ ledger o2 = ledger o1
    /\ Get (withStatus o2) = Returns (mkStatus AutStFailed "")
    /\ error_responses o2 = [Trace challenge_already_used].
Proof.
  apply (second_redemption_is_refused deps Background c1_on_offers ∅ c1_used
           (Some c1_record) c1_record); reflexivity.
Defined.

Lemma Get_reads_innermost_With_witness :
  Get (WithValue (With Background (mkStatus AutStSucceeded "A"))
         (Str "livemode") (VOther (Bool true)))
  = Returns (mkStatus AutStSucceeded "A").
Proof.
  rewrite (proj1 (proj2 (Get_reads_innermost_With
                           (With Background (mkStatus AutStSucceeded "A"))
                           (mkStatus AutStFailed "") (mkStatus AutStFailed "")))
             (Str "livemode") (VOther (Bool true)));
    [reflexivity | discriminate].
Defined.

End GateInvariantRuns.

(** ** What every run of the retrieval keeps *)

Section RetrievalInvariants.
Import Endpoint.
Context {RegDB MintDB : Type} (S : Stores RegDB MintDB).

Ltac run_saga :=
  unfold Execute, body, verify_block, mint_block, initial;
  unfold mbind, mret, M_bind, M_ret, Begin_register, Begin_mint,
    Commit_register, Commit_mint, reg_load, reg_save, mint_load,
    mint_update_password, mint_save, mint_create, emit, return_, fatal, panic;
  cbn.

(** Case analysis on what the stores answer, call after call. *)
Ltac saga_cases :=
  repeat (cbn;
          match goal with
          | |- context [LoadUserByUsername S ?db ?n] =>
              destruct (LoadUserByUsername S db n) as [[?user |] [?err |]] eqn:?
          | |- context [String.eqb ?a ?b] => destruct (String.eqb a b) eqn:?
          | |- context [decide (Register.Status ?u <> ?v)] =>
              destruct (decide (Register.Status u <> v))
          | |- context [Save S ?db ?u] =>
              destruct (Save S db u) as [[?err |] ?db] eqn:?
          | |- context [Register.MintToken ?u] =>
              destruct (Register.MintToken u) as [?token |] eqn:?
          | |- context [mint_LoadUserByUsername S ?db ?n] =>
              destruct (mint_LoadUserByUsername S db n)
                as [[?mu |] [?err |]] eqn:?
          | |- context [UpdatePassword S ?db ?u ?p] =>
              destruct (UpdatePassword S db u p) as [[?err |] ?mu] eqn:?
          | |- context [mint_User_Save S ?db ?u] =>
              destruct (mint_User_Save S db u) as [[?err |] ?db] eqn:?
          | |- context [CreateUser S ?db ?n ?p] =>
              destruct (CreateUser S db n p) as [[[?mu |] [?err |]] ?db] eqn:?
          end).

(** X8. A run that does not return 201 changes nothing: when [Execute]
    returns an error, stops the process or panics, both stores are as
    before and nothing was committed; whenever it returns, no transaction
    is left open; and it returns either an error alone or 201 with a
    response, after committing the register store. *)
Theorem failed_retrieval_changes_nothing
    (e : RetrieveUser) (reg : RegDB) (mint : MintDB) :
  let run := Execute S e reg mint in
  match fst run with
  | Return status resp err =>
      regCtx_open (snd run) = false /\ mintCtx_open (snd run) = false
      /\ match err with
         | None =>
             status = Some 201 /\ resp <> None
             /\ last (trace (snd run)) = Some (db_Commit "register")
         | Some _ =>
             status = None /\ resp = None
             /\ register_db (snd run) = reg /\ mint_db (snd run) = mint
             /\ filter is_commit (trace (snd run)) = []
         end
  | Fatal _ | Panic _ =>
      register_db (snd run) = reg /\ mint_db (snd run) = mint
      /\ filter is_commit (trace (snd run)) = []
  end.
Proof.
  cbv zeta. run_saga. saga_cases; repeat split; discriminate.
Qed.

Lemma set_Status_same (user : Register.User) :
  Register.Status user = Register.UsrStVerified ->
  Register.set_Status user Register.UsrStVerified = user.
Proof. destruct user; cbn; intros ->; reflexivity. Qed.

Lemma set_MintToken_same (user : Register.User) (token : string) :
  Register.MintToken user = Some token ->
  Register.set_MintToken user (Some token) = user.
Proof. destruct user; cbn; intros ->; reflexivity. Qed.

Lemma Status_not_not_Verified (user : Register.User) :
  ~ Register.Status user <> Register.UsrStVerified ->
  Register.Status user = Register.UsrStVerified.
Proof. destruct (Register.Status user); [intros H; exfalso; apply H; discriminate | reflexivity]. Qed.

(** What a returned response says about the run. *)
Lemma Execute_response
    (e : RetrieveUser) (reg : RegDB) (mint : MintDB)
    (status : option Z) (resp : Resp) (err : option error) (st : St) :
  Execute S e reg mint = (Return status (Some resp) err, st) ->
  exists user token,
    LoadUserByUsername S reg (Username e) = (Some user, None)
    /\ Register.Secret user = Secret e
    /\ status = Some 201 /\ err = None
    /\ resp_user resp
       = Register.set_MintToken
           (Register.set_Status user Register.UsrStVerified) (Some token)
    /\ (forall t, Register.MintToken user = Some t -> token = t)
    /\ resp_credentials resp
       = Register.mkCredentialsResource
           (Register.Username user +:+ "@" +:+ GetMint S)
           (Register.Password user).
Proof.
  run_saga. saga_cases; intros [= <- <- <- <-];
    match goal with
    | Heq : String.eqb _ _ = true |- _ => apply String.eqb_eq in Heq
    end;
    repeat match goal with
    | Hs : ~ Register.Status _ <> _ |- _ => apply Status_not_not_Verified in Hs
    end.
  all: eexists; eexists; (split; [reflexivity |]); (split; [assumption |]);
    (split; [reflexivity |]); (split; [reflexivity |]).
  all: cbn [resp_user resp_credentials];
    try rewrite set_Status_same by assumption;
    (split;
     [ first [ reflexivity
             | symmetry; apply set_MintToken_same; cbn; eassumption ]
     | split; [intros t Ht; congruence | reflexivity] ]).
Qed.

(** The run on a user that is Verified and linked. *)
Lemma Execute_completed
    (e : RetrieveUser) (reg : RegDB) (mint : MintDB)
    (user : Register.User) (token : string) :
  LoadUserByUsername S reg (Username e) = (Some user, None) ->
  Register.Secret user = Secret e ->
  Register.Status user = Register.UsrStVerified ->
  Register.MintToken user = Some token ->
  Execute S e reg mint
  = (Return (Some 201)
       (Some (mkResp user
                (Register.mkCredentialsResource
                   (Register.Username user +:+ "@" +:+ GetMint S)
                   (Register.Password user))))
       None,
     mkSt reg mint reg false mint false
       [ db_Begin "register";
         Logf "User retrieval: username=%s" [Str (Username e)];
         model_LoadUserByUsername (Username e);
         db_Commit "register" ]).
Proof.
  intros Hload Hsecret Hstatus Htoken.
  run_saga. rewrite Hload. cbn.
  rewrite Hsecret, String.eqb_refl. cbn.
  rewrite Hstatus. case_decide; [congruence |]. cbn. rewrite Htoken. cbn.
  reflexivity.
Qed.

(** X9. Whenever [Execute] returns a response, the status is 201 without
    error, a user with the supplied secret was loaded, and the user in the
    response is that user marked Verified and carrying a mint token, the one
    it had if it had one; nothing else of the user differs. The credentials
    are username@mint and the user's password. *)
Theorem response_is_verified_and_linked
    (e : RetrieveUser) (reg : RegDB) (mint : MintDB)
    (status : option Z) (resp : Resp) (err : option error) (st : St) :
  Execute S e reg mint = (Return status (Some resp) err, st) ->
  exists user token,
    LoadUserByUsername S reg (Username e) = (Some user, None)
    /\ Register.Secret user = Secret e
    /\ status = Some 201 /\ err = None
    /\ resp_user resp
       = Register.set_MintToken
           (Register.set_Status user Register.UsrStVerified) (Some token)
    /\ (forall t, Register.MintToken user = Some t -> token = t)
    /\ resp_credentials resp
       = Register.mkCredentialsResource
           (Register.Username user +:+ "@" +:+ GetMint S)
           (Register.Password user).
Proof. apply Execute_response. Qed.

(** X10. The two commits come in one order and the mint store is never
    committed alone: a run commits nothing and leaves both stores as they
    were, or commits the register store only and leaves the mint store as
    it was, or commits the mint store and then the register store. *)
Theorem mint_commit_is_followed_by_register_commit
    (e : RetrieveUser) (reg : RegDB) (mint : MintDB) :
  let st := snd (Execute S e reg mint) in
  (filter is_commit (trace st) = []
   /\ register_db st = reg /\ mint_db st = mint)
  \/ (filter is_commit (trace st) = [db_Commit "register"]
      /\ mint_db st = mint)
  \/ filter is_commit (trace st) = [db_Commit "mint"; db_Commit "register"].
Proof.
  cbv zeta. run_saga.
  saga_cases;
    first [ left; repeat split; reflexivity
          | right; left; repeat split; reflexivity
          | right; right; reflexivity ].
Qed.

(** X11. Repair of a half-done provisioning. When the user has no
    MintToken and the mint store already has a user of its username, the
    stores answering: the mint user's password is updated to the register
    password and saved, [CreateUser] is not called, the register user is
    saved with the token of that mint user, and the return is 201. *)
Theorem existing_mint_user_is_reconciled
    (e : RetrieveUser) (reg reg1 reg2 : RegDB) (mint mint1 : MintDB)
    (user : Register.User) (mu mu' : MintModel.User) :
  let verified := Register.set_Status user Register.UsrStVerified in
  let linked :=
    Register.set_MintToken verified (Some (MintModel.Token mu')) in
  LoadUserByUsername S reg (Username e) = (Some user, None) ->
  Register.Secret user = Secret e ->
  (Register.Status user = Register.UsrStVerified /\ reg1 = reg)
  \/ (Register.Status user <> Register.UsrStVerified
      /\ Save S reg verified = (None, reg1)) ->
  Register.MintToken user = None ->
  mint_LoadUserByUsername S mint (Register.Username user) = (Some mu, None) ->
  UpdatePassword S mint mu (Register.Password user) = (None, mu') ->
  mint_User_Save S mint mu' = (None, mint1) ->
  Save S reg1 linked = (None, reg2) ->
  exists st,
    Execute S e reg mint
    = (Return (Some 201)
         (Some (mkResp linked
                  (Register.mkCredentialsResource
                     (Register.Username user +:+ "@" +:+ GetMint S)
                     (Register.Password user))))
         None,
       st)
    /\ register_db st = reg2
    /\ mint_db st = mint1
    /\ filter is_CreateUser (trace st) = []
    /\ In (mint_UpdatePassword mu (Register.Password user)) (trace st)
    /\ In (mint_Save mu') (trace st)
    /\ In (register_Save linked) (trace st).
Proof.
  intros verified linked Hload Hsecret Hverified Htoken Hmload Hupdate
    Hmsave Hsave2.
  run_saga. rewrite Hload. cbn.
  rewrite Hsecret, String.eqb_refl. cbn.
  destruct Hverified as [[Hstatus ->] | [Hstatus Hsave1]].
  - assert (Hsame : verified = user) by now apply set_Status_same.
    unfold linked in *. rewrite Hsame in *.
    case_decide; [congruence |]. cbn.
    rewrite Htoken. cbn. rewrite Hmload. cbn. rewrite Hupdate. cbn.
    rewrite Hmsave. cbn. rewrite Hsave2. cbn.
    eexists. split; [reflexivity |]. cbn.
    repeat split; auto 12 using in_eq, in_cons.
  - case_decide; [| contradiction]. cbn. fold verified. rewrite Hsave1. cbn.
    rewrite Htoken. cbn. rewrite Hmload. cbn. rewrite Hupdate. cbn.
    rewrite Hmsave. cbn. fold verified. fold linked. rewrite Hsave2. cbn.
    eexists. split; [reflexivity |]. cbn.
    repeat split; auto 12 using in_eq, in_cons.
Qed.

(** X12. Retrieval can be repeated. When a run returned a response and the
    register store it left gives back, for the username, the user of that
    response, a second run on the stores it left returns the same response
    and writes nothing: both stores stay as the first run left them. *)
Theorem second_retrieval_returns_the_same
    (e : RetrieveUser) (reg : RegDB) (mint : MintDB)
    (status : option Z) (resp : Resp) (err : option error) (st : St) :
  Execute S e reg mint = (Return status (Some resp) err, st) ->
  LoadUserByUsername S (register_db st) (Username e)
  = (Some (resp_user resp), None) ->
  exists st',
    Execute S e (register_db st) (mint_db st)
    = (Return status (Some resp) err, st')
    /\ register_db st' = register_db st
    /\ mint_db st' = mint_db st
    /\ filter is_write (trace st') = [].
Proof.
  intros Hrun Hreload.
  destruct (Execute_response _ _ _ _ _ _ _ Hrun)
    as (user & token & _ & Hsecret & -> & -> & Huser & _ & Hcred).
  rewrite (Execute_completed e (register_db st) (mint_db st)
             (resp_user resp) token Hreload).
  - destruct resp as [u c]. cbn in *. subst u c.
    eexists. split; [reflexivity |]. repeat split.
  - rewrite Huser. exact Hsecret.
  - rewrite Huser. reflexivity.
  - rewrite Huser. reflexivity.
Qed.

End RetrievalInvariants.

Section RetrievalInvariantRuns.
Import Endpoint Reference.

Lemma response_is_verified_and_linked_witness :
  exists user token,
    LoadUserByUsername stores
      (register_with (alice Register.UsrStUnverified None)) "alice"
    = (Some user, None)
    /\ Register.Secret user = "S1"
    /\ Some 201 = Some 201 /\ @None error = None
    /\ alice Register.UsrStVerified (Some "mint_alice")
       = Register.set_MintToken
           (Register.set_Status user Register.UsrStVerified) (Some token)
    /\ (forall t, Register.MintToken user = Some t -> token = t)
    /\ Register.mkCredentialsResource "alice@mint.example" "pw-alice"
       = Register.mkCredentialsResource
           (Register.Username user +:+ "@" +:+ "mint.example")
           (Register.Password user).
Proof.
  apply (response_is_verified_and_linked stores (mkRetrieveUser "alice" "S1")
           (register_with (alice Register.UsrStUnverified None)) ∅
           (Some 201)
           (mkResp (alice Register.UsrStVerified (Some "mint_alice"))
              (Register.mkCredentialsResource "alice@mint.example" "pw-alice"))
           None
           (snd (Execute stores (mkRetrieveUser "alice" "S1")
                   (register_with (alice Register.UsrStUnverified None)) ∅))).
  vm_compute. reflexivity.
Defined.

Lemma existing_mint_user_is_reconciled_witness :
  exists st,
    Execute stores (mkRetrieveUser "alice" "S1")
      (register_with (alice Register.UsrStUnverified None))
      {[ "alice" := mint_leftover "old-pw" ]}
    = (Return (Some 201)
         (Some (mkResp (alice Register.UsrStVerified (Some "mint_old"))
                  (Register.mkCredentialsResource "alice@mint.example"
                     "pw-alice")))
         None,
       st)
    /\ register_db st
       = register_with (alice Register.UsrStVerified (Some "mint_old"))
    /\ mint_db st = {[ "alice" := mint_leftover "pw-alice" ]}
    /\ filter is_CreateUser (trace st) = [].
Proof.
  assert (Hrun := existing_mint_user_is_reconciled stores
              (mkRetrieveUser "alice" "S1")
              (register_with (alice Register.UsrStUnverified None))
              (register_with (alice Register.UsrStVerified None))
              (register_with (alice Register.UsrStVerified (Some "mint_old")))
              {[ "alice" := mint_leftover "old-pw" ]}
              {[ "alice" := mint_leftover "pw-alice" ]}
              (alice Register.UsrStUnverified None)
              (mint_leftover "old-pw") (mint_leftover "pw-alice")).
  cbv zeta in Hrun.
  destruct Hrun as (st & Hrun & Hreg & Hmint & Hcreate & _);
    try (vm_compute; reflexivity).
  - right. split; [discriminate | vm_compute; reflexivity].
  - exists st. repeat split; assumption.
Defined.

Lemma second_retrieval_returns_the_same_witness :
  let first := Execute stores (mkRetrieveUser "alice" "S1")
                 (register_with (alice Register.UsrStUnverified None)) ∅ in
  exists st',
    Execute stores (mkRetrieveUser "alice" "S1")
      (register_db (snd first)) (mint_db (snd first))
    = (Return (Some 201)
         (Some (mkResp (alice Register.UsrStVerified (Some "mint_alice"))
                  (Register.mkCredentialsResource "alice@mint.example"
                     "pw-alice")))
         None,
       st')
    /\ register_db st' = register_db (snd first)
    /\ mint_db st' = mint_db (snd first)
    /\ filter is_write (trace st') = [].
Proof.
  cbv zeta.
  apply (second_retrieval_returns_the_same stores (mkRetrieveUser "alice" "S1")
           (register_with (alice Register.UsrStUnverified None)) ∅);
    vm_compute; reflexivity.
Defined.

End RetrievalInvariantRuns.

(** ** More on the column codecs *)

Section Codecs.

Lemma scan_digits_all_digits (s : string) :
  forall acc : Z,
    if all_digits s then exists z, scan_digits acc s = Some z
    else scan_digits acc s = None.
Proof.
  induction s as [| c s IH]; intros acc; cbn [all_digits scan_digits].
  - eauto.
  - unfold is_digit. destruct (digit_val c) as [d |]; cbn; [apply IH | reflexivity].
Qed.

Lemma scan_nat_digits_shape (s : string) :
  if digits_shape s then exists z, scan_nat s = Some z
  else scan_nat s = None.
Proof.
  destruct s as [| c s]; [reflexivity |].
  unfold digits_shape, scan_nat. apply scan_digits_all_digits.
Qed.

Lemma big_SetString_decimal_shape (s : string) :
  if decimal_shape s then exists z, big_SetString s = Some z
  else big_SetString s = None.
Proof.
  destruct s as [| c rest]; [reflexivity |].
  unfold decimal_shape, big_SetString.
  destruct (Ascii.eqb c "-"); cbn [orb].
  - pose proof (scan_nat_digits_shape rest) as H.
    destruct (digits_shape rest); [destruct H as [z ->]; cbn; eauto |].
    now rewrite H.
  - destruct (Ascii.eqb c "+"); apply scan_nat_digits_shape.
Qed.

(** X13. [Amount.Scan] takes a text exactly when it is an optional sign
    followed by one or more decimal digits; any other text, the empty one
    included, is refused with the error that quotes the source, for a
    string and for a byte slice alike. *)
Theorem Amount_Scan_accepts_decimal_texts (old : Amount) (s : string) :
  if decimal_shape s then
    exists z, Amount_Scan old (Str s) = Ok z
              /\ Amount_Scan old (Bytes s) = Ok z
  else
    Amount_Scan old (Str s)
    = Err (Newf "Impossible to set Amount with string: %q" [Str s])
    /\ Amount_Scan old (Bytes s)
       = Err (Newf "Impossible to set Amount with string: %q" [Bytes s]).
Proof.
  pose proof (big_SetString_decimal_shape s) as H. unfold Amount_Scan.
  destruct (decimal_shape s).
  - destruct H as [z ->]. eauto.
  - rewrite H. split; reflexivity.
Qed.

(** X14. Two Amounts that differ are written to the column as two strings
    that differ. *)
Theorem Amount_Value_distinct (a b : Amount) :
  a <> b -> Amount_Value a <> Amount_Value b.
Proof.
  intros Hne Heq. apply Hne. unfold Amount_Value in Heq.
  injection Heq as Heq.
  pose proof (big_SetString_String a) as Ha. rewrite Heq in Ha.
  rewrite big_SetString_String in Ha. congruence.
Qed.

Lemma Amount_Value_distinct_witness :
  Amount_Value (2 ^ 64) <> Amount_Value (2 ^ 64 + 1).
Proof. apply Amount_Value_distinct. discriminate. Defined.

(** X15. A column read back as an integer and the same column read back as
    its decimal text give the same Amount. *)
Theorem Amount_Scan_int64_agrees_with_text (old : Amount) (n : Z) :
  Amount_Scan old (Int64 n) = Amount_Scan old (Str (big_String n))
  /\ Amount_Scan old (Int64 n) = Ok n.
Proof.
  unfold Amount_Scan. rewrite big_SetString_String. split; reflexivity.
Qed.

End Codecs.

(** ** The log line, the context and the ledger of a run *)

Section GateEffects.
Import Regexp Authentication.
Context {Ledger : Type} (deps : Collaborators Ledger).

(** What is common to all paths of [ServeHTTPC]: a run is [failedAuth] on
    some ledger, or the success path after an insertion without error. *)
Lemma ServeHTTPC_paths (ctx : Context) (r : Request) (l : Ledger) :
  (exists l0 err,
      (l0 = l
       \/ exists auth e,
            CreateAuthentication deps l (Request_Method r) (URL_String r)
              (Request_challenge r) (Request_address r) (Request_signature r)
            = (auth, Some e, l0))
      /\ ServeHTTPC deps ctx r l
         = failedAuth deps (skip_eligible SkipList r) ctx r
             (Request_address r) (Request_challenge r) (Request_signature r)
             l0 err)
  \/ (exists auth l',
         CheckChallenge deps ctx (Request_challenge r) = None
         /\ VerifyChallenge deps ctx (Request_challenge r)
              (Request_address r) (Request_signature r) = None
         /\ LoadAuthenticationByChallenge deps l (Request_challenge r)
            = (None, None)
         /\ CreateAuthentication deps l (Request_Method r) (URL_String r)
              (Request_challenge r) (Request_address r) (Request_signature r)
            = (auth, None, l')
         /\ ServeHTTPC deps ctx r l
            = Returns (mkOutcome
                (With ctx (mkStatus AutStSucceeded (Request_address r)))
                [ Logf "Authentication: status=%q livemode=%t address=%q challenge=%q signature=%q"
                    [Str AutStSucceeded; Bool (livemode_Get deps ctx);
                     Str (Request_address r); Str (Request_challenge r);
                     Str (Request_signature r)];
                  Handler_ServeHTTPC
                    (With ctx (mkStatus AutStSucceeded (Request_address r)))
                    r ]
                l')).
Proof.
  rewrite ServeHTTPC_read. cbv zeta.
  assert (Hkept : forall P err,
    (exists l0 err0,
        (l0 = l \/ P l0)
        /\ failedAuth deps (skip_eligible SkipList r) ctx r
             (Request_address r) (Request_challenge r) (Request_signature r)
             l err
           = failedAuth deps (skip_eligible SkipList r) ctx r
               (Request_address r) (Request_challenge r)
               (Request_signature r) l0 err0)).
  { intros P err. exists l, err. split; [now left | reflexivity]. }
  destruct (CheckChallenge deps ctx _) as [e |]; [left; apply Hkept |].
  destruct (VerifyChallenge deps ctx _ _ _) as [e |]; [left; apply Hkept |].
  destruct (LoadAuthenticationByChallenge deps l _) as [[found |] [e |]];
    try (left; apply Hkept).
  destruct (CreateAuthentication deps l _ _ _ _ _) as [[auth [e |]] l'] eqn:Hc.
  - left. exists l', (Trace e). split; [right; eauto | reflexivity].
  - right. exists auth, l'. repeat split.
Qed.

(** X16. The log line of a run that ends Skipped holds the status and the
    livemode flag only; the log line of a run that ends Failed or
    Succeeded also holds the address, the challenge and the signature of
    the request, as received. *)
Theorem log_line_by_status (ctx : Context) (r : Request) (l : Ledger) :
  exists o st format action,
    ServeHTTPC deps ctx r l = Returns o
    /\ Get (withStatus o) = Returns st
    /\ events o
       = [ Logf format
             (if String.eqb (Status_Status st) AutStSkipped then
                [Str AutStSkipped; Bool (livemode_Get deps ctx)]
              else
                [Str (Status_Status st); Bool (livemode_Get deps ctx);
                 Str (Request_address r); Str (Request_challenge r);
                 Str (Request_signature r)]);
           action ].
Proof.
  destruct (ServeHTTPC_paths ctx r l)
    as [(l0 & err & _ & ->) | (auth & l' & _ & _ & _ & _ & ->)].
  - destruct (skip_eligible SkipList r);
      [rewrite failedAuth_skip | rewrite failedAuth_fail];
      do 4 eexists; (split; [reflexivity |]); cbn [withStatus events];
      rewrite Get_With; (split; [reflexivity |]); reflexivity.
  - do 4 eexists. split; [reflexivity |]. cbn [withStatus events].
    rewrite Get_With. split; reflexivity.
Qed.

(** X17. The context a run attaches is the incoming context with one
    status layer on top: every value the incoming context holds under
    another key is read unchanged from it. *)
Theorem attached_context_extends_incoming
    (ctx : Context) (r : Request) (l : Ledger) :
  exists o st,
    ServeHTTPC deps ctx r l = Returns o
    /\ withStatus o = With ctx st
    /\ forall k : any,
         k <> Str statusKey -> Value (withStatus o) k = Value ctx k.
Proof.
  assert (Hlayer : forall st k,
            k <> Str statusKey -> Value (With ctx st) k = Value ctx k).
  { intros st k Hk. unfold With. cbn [Value].
    destruct (decide (Str statusKey = k)); [congruence | reflexivity]. }
  destruct (ServeHTTPC_paths ctx r l)
    as [(l0 & err & _ & ->) | (auth & l' & _ & _ & _ & _ & ->)].
  - destruct (skip_eligible SkipList r);
      [rewrite failedAuth_skip | rewrite failedAuth_fail];
      do 2 eexists; (split; [reflexivity |]); cbn [withStatus];
      (split; [reflexivity | apply Hlayer]).
  - do 2 eexists. split; [reflexivity |]. cbn [withStatus].
    split; [reflexivity | apply Hlayer].
Qed.

(** X18. The ledger is written by the insertion only, and the insertion is
    called only after both checks passed and the lookup found nothing and
    did not fail: otherwise the run leaves the ledger it was given. *)
Theorem ledger_written_only_by_insertion
    (ctx : Context) (r : Request) (l : Ledger) :
  exists o,
    ServeHTTPC deps ctx r l = Returns o
    /\ (ledger o = l
        \/ (CheckChallenge deps ctx (Request_challenge r) = None
            /\ VerifyChallenge deps ctx (Request_challenge r)
                 (Request_address r) (Request_signature r) = None
            /\ LoadAuthenticationByChallenge deps l (Request_challenge r)
               = (None, None)
            /\ exists auth err,
                 CreateAuthentication deps l (Request_Method r) (URL_String r)
                   (Request_challenge r) (Request_address r)
                   (Request_signature r)
                 = (auth, err, ledger o))).
Proof.
  rewrite ServeHTTPC_read. cbv zeta.
  assert (Hkept : forall e,
    exists o,
      failedAuth deps (skip_eligible SkipList r) ctx r (Request_address r)
        (Request_challenge r) (Request_signature r) l e = Returns o
      /\ (ledger o = l
          \/ (CheckChallenge deps ctx (Request_challenge r) = None
              /\ VerifyChallenge deps ctx (Request_challenge r)
                   (Request_address r) (Request_signature r) = None
              /\ LoadAuthenticationByChallenge deps l (Request_challenge r)
                 = (None, None)
              /\ exists auth err,
                   CreateAuthentication deps l (Request_Method r)
                     (URL_String r) (Request_challenge r) (Request_address r)
                     (Request_signature r)
                   = (auth, err, ledger o)))).
  { intros e.
    destruct (failedAuth_returns deps (skip_eligible SkipList r) ctx r
                (Request_address r) (Request_challenge r)
                (Request_signature r) l e) as (o & Hrun & _ & _ & _ & Hl).
    exists o. split; [exact Hrun | now left]. }
  destruct (CheckChallenge deps ctx _) as [e |] eqn:Hcheck; [apply Hkept |].
  destruct (VerifyChallenge deps ctx _ _ _) as [e |] eqn:Hverify;
    [apply Hkept |].
  destruct (LoadAuthenticationByChallenge deps l _) as [[found |] [e |]]
    eqn:Hload; try apply Hkept.
  destruct (CreateAuthentication deps l _ _ _ _ _) as [[auth [e |]] l']
    eqn:Hcreate.
  - destruct (failedAuth_returns deps (skip_eligible SkipList r) ctx r
                (Request_address r) (Request_challenge r)
                (Request_signature r) l' (Trace e))
      as (o & Hrun & _ & _ & _ & Hl).
    exists o. split; [exact Hrun |]. right. rewrite Hl. eauto 8.
  - eexists. split; [reflexivity |]. right. cbn [ledger]. eauto 8.
Qed.

End GateEffects.
